(** * A shallow embedding of the JSX runtime (src/src/jsx-runtime.ts)

    The runtime turns element descriptors into host nodes and keeps a
    process-wide table of component state.  The development follows the
    source file part by part:

    - PART 1/2: JavaScript values, descriptors, [createElement];
    - PART 3: the module-level variables and [useState];
    - PART 4: the host document, [renderToDOM], [mount], [rerender].

    Conventions of the embedding.
    - Primitive values are compared by value and objects by reference, as
      [===] does: every object-like value carries the reference it lives at.
    - Numbers are the integral ones plus [NaN].
    - A component function is known by its reference; what it does when it
      is called is given by a table of bodies, a parameter of the
      development.  A body is a small program over the hook interface. *)

From Stdlib Require Import ZArith String Ascii List Lia Bool DecimalString.
From stdpp Require Import base option list gmap strings.

#[local] Set Warnings "-register-all".
Import ListNotations.
Open Scope string_scope.
Open Scope list_scope.

(* ================================================================== *)
(** * PART 1: values and descriptors *)
(* ================================================================== *)

(** A reference: the identity of a function, array or object. *)
Definition ref := positive.
Bind Scope positive_scope with ref.

(** [VNode.type]: a tag name or a component function. *)
Inductive kind :=
| Tag (name : string)
| Component (f : ref).

(** JavaScript values as the runtime meets them, and the [VNode] interface
    [{ type, props, children }].  [props] is kept as the list that
    [Object.entries] enumerates.  [VObj] is an object that is not a
    descriptor: it has no [type], [props] or [children] member. *)
Inductive value :=
| VUndefined
| VNull
| VBool (b : bool)
| VNum (n : Z)
| VNaN
| VStr (s : string)
| VFunc (r : ref)
| VArr (r : ref) (items : list value)
| VObj (r : ref) (entries : list (string * value))
| VNode (r : ref) (vn : vnode)
with vnode :=
| mkVNode (type : kind) (props : list (string * value)) (children : list value).

Definition type (vn : vnode) : kind := let 'mkVNode t _ _ := vn in t.
Definition props (vn : vnode) : list (string * value) := let 'mkVNode _ p _ := vn in p.
Definition children (vn : vnode) : list value := let 'mkVNode _ _ c := vn in c.

(** [a === b]. *)
Definition strict_eq (a b : value) : bool :=
  match a, b with
  | VUndefined, VUndefined => true
  | VNull, VNull => true
  | VBool x, VBool y => Bool.eqb x y
  | VNum x, VNum y => Z.eqb x y
  | VStr x, VStr y => String.eqb x y
  | VFunc r, VFunc r' => Pos.eqb r r'
  | VArr r _, VArr r' _ => Pos.eqb r r'
  | VObj r _, VObj r' _ => Pos.eqb r r'
  | VNode r _, VNode r' _ => Pos.eqb r r'
  | _, _ => false
  end.

(** Truthiness, as [if (v)] and [v || w] see it. *)
Definition truthy (v : value) : bool :=
  match v with
  | VUndefined | VNull | VNaN => false
  | VBool b => b
  | VNum n => negb (Z.eqb n 0)
  | VStr s => negb (String.eqb s "")
  | VFunc _ | VArr _ _ | VObj _ _ | VNode _ _ => true
  end.

(** [typeof v]. *)
Definition typeof (v : value) : string :=
  match v with
  | VUndefined => "undefined"
  | VBool _ => "boolean"
  | VNum _ | VNaN => "number"
  | VStr _ => "string"
  | VFunc _ => "function"
  | VNull | VArr _ _ | VObj _ _ | VNode _ _ => "object"
  end.

(* ================================================================== *)
(** * PART 2: the JSX factory *)
(* ================================================================== *)

(** [children.flat()]: one level; an array argument gives its items. *)
Definition flat (children : list value) : list value :=
  flat_map (fun child => match child with VArr _ items => items | _ => [child] end)
           children.

(** [createElement(type, props, ...children)]; [props] is a record or [null]. *)
Definition createElement (type : kind) (props : option (list (string * value)))
    (children : list value) : vnode :=
  let finalProps := match props with Some p => p | None => [] end in
  let finalChildren :=
    List.filter
      (fun child => negb (strict_eq child VNull) && negb (strict_eq child VUndefined))
      (flat children) in
  mkVNode type finalProps finalChildren.

(** [createFragment(props, ...children)]. *)
Definition createFragment (props : option (list (string * value)))
    (children : list value) : vnode :=
  createElement (Tag "fragment") (Some (match props with Some p => p | None => [] end))
                children.

(** ** What the specification asks of the factory, in its own words *)

(** [null] and [undefined], the entries to drop. *)
Definition nullish (v : value) : Prop := v = VNull \/ v = VUndefined.

(** [spliced args out]: [out] is [args] flattened exactly one level, every
    array argument replaced by its items at the place where it stood. *)
Inductive spliced : list value -> list value -> Prop :=
| spliced_nil : spliced [] []
| spliced_array r items rest out :
    spliced rest out -> spliced (VArr r items :: rest) (items ++ out)
| spliced_other child rest out :
    (forall r items, child <> VArr r items) ->
    spliced rest out -> spliced (child :: rest) (child :: out).

(** [kept l out]: [out] is [l] with exactly the nullish entries removed,
    the others left in their order. *)
Inductive kept : list value -> list value -> Prop :=
| kept_nil : kept [] []
| kept_drop v l out : nullish v -> kept l out -> kept (v :: l) out
| kept_keep v l out : ~ nullish v -> kept l out -> kept (v :: l) (v :: out).

(* ================================================================== *)
(** * Strings *)
(* ================================================================== *)

Definition is_upper (c : ascii) : bool :=
  Nat.leb 65 (nat_of_ascii c) && Nat.leb (nat_of_ascii c) 90.

Definition lower_ascii (c : ascii) : ascii :=
  if is_upper c then ascii_of_nat (nat_of_ascii c + 32) else c.

(** [s.toLowerCase()], on the ASCII letters. *)
Fixpoint toLowerCase (s : string) : string :=
  match s with
  | EmptyString => EmptyString
  | String c rest => String (lower_ascii c) (toLowerCase rest)
  end.

(** [s.replace(/([A-Z])/g, '-$1')]. *)
Fixpoint dash_capitals (s : string) : string :=
  match s with
  | EmptyString => EmptyString
  | String c rest =>
      if is_upper c then String "-"%char (String c (dash_capitals rest))
      else String c (dash_capitals rest)
  end.

(** The [cssKey] that the style loop computes from a [styleKey]. *)
Definition cssKey (styleKey : string) : string :=
  toLowerCase (dash_capitals styleKey).

(** [key.substring(2)]. *)
Definition substring_from2 (key : string) : string :=
  substring 2 (String.length key - 2) key.

(* ================================================================== *)
(** * The host document *)
(* ================================================================== *)

(** What the renderer writes on an element, kept as it writes it: the
    attributes set by [setAttribute], the [className] property, the entries
    of the [style] object, the properties assigned directly, the listeners.
    The host's own reactions to these writes (case folding of names,
    reflection between a property and an attribute) are not part of it. *)
Record ElemData := mkElem {
  tagName : string;
  attributes : list (string * string);
  className : string;
  style : list (string * value);
  properties : list (string * value);
  listeners : list (string * ref);
}.

(** Host nodes.  Every node carries the identity it was created with. *)
Inductive node :=
| Text (id : nat) (data : string)
| Element (id : nat) (e : ElemData) (childNodes : list node)
| Fragment (id : nat) (childNodes : list node).

Definition node_id (n : node) : nat :=
  match n with Text i _ | Element i _ _ | Fragment i _ => i end.

(** The nodes that [parent.appendChild(n)] inserts: a document fragment
    gives up its children, any other node goes in itself. *)
Definition nodes_of (n : node) : list node :=
  match n with
  | Fragment _ kids => kids
  | _ => [n]
  end.

(** [o[k] = v] on a keyed record: overwrite in place, or add at the end. *)
Fixpoint assign {A : Type} (k : string) (v : A) (o : list (string * A)) : list (string * A) :=
  match o with
  | [] => [(k, v)]
  | (k', v') :: rest =>
      if String.eqb k' k then (k, v) :: rest else (k', v') :: assign k v rest
  end.

(** [o[k]]. *)
Fixpoint member {A : Type} (k : string) (o : list (string * A)) : option A :=
  match o with
  | [] => None
  | (k', v) :: rest => if String.eqb k' k then Some v else member k rest
  end.

Definition newElement (tag : string) : ElemData :=
  mkElem tag [] "" [] [] [].

Definition setAttribute (name val : string) (e : ElemData) : ElemData :=
  mkElem (tagName e) (assign name val (attributes e)) (className e) (style e)
         (properties e) (listeners e).

Definition setClassName (val : string) (e : ElemData) : ElemData :=
  mkElem (tagName e) (attributes e) val (style e) (properties e) (listeners e).

Definition setStyleProperty (styleKey : string) (styleValue : value) (e : ElemData) : ElemData :=
  mkElem (tagName e) (attributes e) (className e) (assign styleKey styleValue (style e))
         (properties e) (listeners e).

Definition setProperty (key : string) (val : value) (e : ElemData) : ElemData :=
  mkElem (tagName e) (attributes e) (className e) (style e)
         (assign key val (properties e)) (listeners e).

(** [addEventListener]: a listener already registered for the event is not
    registered twice. *)
Definition addEventListener (eventName : string) (f : ref) (e : ElemData) : ElemData :=
  if existsb (fun l => String.eqb (fst l) eventName && Pos.eqb (snd l) f) (listeners e)
  then e
  else mkElem (tagName e) (attributes e) (className e) (style e) (properties e)
              (listeners e ++ [(eventName, f)]).

(* ================================================================== *)
(** * PART 3: state management *)
(* ================================================================== *)

(** Array reads and writes as JavaScript does them: reading past the end
    gives [undefined], writing past the end grows the array. *)
Definition array_get (a : list value) (i : nat) : value :=
  default VUndefined (a !! i).

Definition array_set (a : list value) (i : nat) (v : value) : list value :=
  if Nat.ltb i (length a) then <[i := v]> a
  else a ++ replicate (i - length a) VUndefined ++ [v].

(** The module-level variables of the runtime, and the host document it
    works on: the children of each container element, the next node
    identity, and the post-mount callbacks invoked so far. *)
Record State := mkState {
  currentComponent : option ref;
  componentStates : gmap (option ref) (list value);
  stateIndex : nat;
  rootVNode : value;
  rootContainer : option nat;
  renderedNode : option nat;
  globalContainer : option nat;
  globalVNode : value;
  containers : gmap nat (list node);
  nextNode : nat;
  mountedCalls : list (ref * nat);
}.

Definition with_cursor (c : option ref) (i : nat) (st : State) : State :=
  mkState c (componentStates st) i (rootVNode st) (rootContainer st) (renderedNode st)
          (globalContainer st) (globalVNode st) (containers st) (nextNode st)
          (mountedCalls st).

Definition with_currentComponent (c : option ref) (st : State) : State :=
  with_cursor c (stateIndex st) st.

Definition with_stateIndex (i : nat) (st : State) : State :=
  with_cursor (currentComponent st) i st.

Definition with_componentStates (m : gmap (option ref) (list value)) (st : State) : State :=
  mkState (currentComponent st) m (stateIndex st) (rootVNode st) (rootContainer st)
          (renderedNode st) (globalContainer st) (globalVNode st) (containers st)
          (nextNode st) (mountedCalls st).

Definition with_root (v : value) (c : option nat) (st : State) : State :=
  mkState (currentComponent st) (componentStates st) (stateIndex st) v c
          (renderedNode st) (globalContainer st) (globalVNode st) (containers st)
          (nextNode st) (mountedCalls st).

Definition with_renderedNode (n : option nat) (st : State) : State :=
  mkState (currentComponent st) (componentStates st) (stateIndex st) (rootVNode st)
          (rootContainer st) n (globalContainer st) (globalVNode st) (containers st)
          (nextNode st) (mountedCalls st).

Definition with_global (v : value) (c : option nat) (st : State) : State :=
  mkState (currentComponent st) (componentStates st) (stateIndex st) (rootVNode st)
          (rootContainer st) (renderedNode st) c v (containers st) (nextNode st)
          (mountedCalls st).

Definition with_containers (d : gmap nat (list node)) (st : State) : State :=
  mkState (currentComponent st) (componentStates st) (stateIndex st) (rootVNode st)
          (rootContainer st) (renderedNode st) (globalContainer st) (globalVNode st) d
          (nextNode st) (mountedCalls st).

Definition with_nextNode (n : nat) (st : State) : State :=
  mkState (currentComponent st) (componentStates st) (stateIndex st) (rootVNode st)
          (rootContainer st) (renderedNode st) (globalContainer st) (globalVNode st)
          (containers st) n (mountedCalls st).

Definition with_mountedCalls (l : list (ref * nat)) (st : State) : State :=
  mkState (currentComponent st) (componentStates st) (stateIndex st) (rootVNode st)
          (rootContainer st) (renderedNode st) (globalContainer st) (globalVNode st)
          (containers st) (nextNode st) l.

(** The state when the module is loaded, over a given document. *)
Definition initial (doc : gmap nat (list node)) (next : nat) : State :=
  mkState None ∅ 0 VNull None None None VNull doc next [].

(** [componentStates.get(component) || []]. *)
Definition states_of (component : option ref) (st : State) : list value :=
  default [] (componentStates st !! component).

(** [states[index] = v], on the array held in the table for [component]. *)
Definition write_slot (component : option ref) (index : nat) (v : value) (st : State) : State :=
  with_componentStates
    (<[component := array_set (states_of component st) index v]> (componentStates st)) st.

(** A hook: the pair of closures that [useState] returns.  Both close over
    the array [states] and the number [index]; the table never replaces the
    array of a component once it is there, so the array is known by the key
    it is stored under. *)
Definition hook : Type := option ref * nat.

(** The outcome of a call: a normal return, an exception, or the model
    running out of steps.  The state is the one at the return or the throw. *)
Inductive exn :=
| TypeError
| Raised (e : value).

Inductive result (A : Type) :=
| Normal (a : A) (st : State)
| Thrown (e : exn) (st : State)
| OutOfFuel.
Arguments Normal {A} a st.
Arguments Thrown {A} e st.
Arguments OutOfFuel {A}.

Definition bind {A B : Type} (m : State -> result A) (k : A -> State -> result B)
    (st : State) : result B :=
  match m st with
  | Normal a st' => k a st'
  | Thrown e st' => Thrown e st'
  | OutOfFuel => OutOfFuel
  end.

Notation "'call' x <- m 'then' k" := (bind m (fun x => k))
  (at level 10, x name, m at level 100, k at level 200).

(** [useState(initialValue)]. *)
Definition useState (initialValue : value) (st : State) : hook * State :=
  let component := currentComponent st in
  let st1 :=
    match componentStates st !! component with
    | Some _ => st
    | None => with_componentStates (<[component := []]> (componentStates st)) st
    end in
  let states := states_of component st1 in
  let index := stateIndex st1 in
  let st2 :=
    if strict_eq (array_get states index) VUndefined
    then write_slot component index initialValue st1
    else st1 in
  ((component, index), with_stateIndex (S index) st2).

(** The same call as a computation that could fail. *)
Definition useState_call (initialValue : value) (st : State) : result hook :=
  let '(h, st') := useState initialValue st in Normal h st'.

(** [getter()]. *)
Definition getter (h : hook) (st : State) : value :=
  array_get (states_of (fst h) st) (snd h).

(** What a component function does when called: a program over the hooks.
    It may call [useState], call a getter or a setter it holds, raise, and
    in the end return a descriptor. *)
Inductive prog :=
| Ret (descriptor : value)
| Raise (e : value)
| CallUseState (initialValue : value) (k : hook -> prog)
| CallGetter (h : hook) (k : value -> prog)
| CallSetter (h : hook) (newValue : value) (k : prog).

(* ================================================================== *)
(** * PART 4: DOM rendering *)
(* ================================================================== *)

Definition children_of (c : nat) (st : State) : list node :=
  default [] (containers st !! c).

(** The containers are the host elements that application code hands to
    [mount]; they stand outside the trees that the runtime renders.

    [n.parentNode], for a node given by its identity: the container that
    holds it, if one does.  (A node that the runtime keeps a reference to
    is a child of a container or is detached.) *)
Definition parentNode (n : nat) (st : State) : option nat :=
  fst <$> List.find
            (fun entry => existsb (fun kid => Nat.eqb (node_id kid) n) (snd entry))
            (map_to_list (containers st)).

(** [container.appendChild(n)]. *)
Definition appendChild (c : nat) (n : node) (st : State) : State :=
  with_containers (<[c := children_of c st ++ nodes_of n]> (containers st)) st.

(** [parent.replaceChild(newChild, oldChild)]. *)
Definition replaceChild (parent : nat) (newChild : node) (oldChild : nat) (st : State) : State :=
  with_containers
    (<[parent := flat_map
                   (fun kid => if Nat.eqb (node_id kid) oldChild
                               then nodes_of newChild else [kid])
                   (children_of parent st)]> (containers st)) st.

(** [container.innerHTML = '']. *)
Definition clearChildren (c : nat) (st : State) : State :=
  with_containers (<[c := []]> (containers st)) st.

(** A fresh node identity, for [document.createElement] and the like. *)
Definition fresh (st : State) : result nat :=
  Normal (nextNode st) (with_nextNode (S (nextNode st)) st).

Definition kind_value (k : kind) : value :=
  match k with Tag name => VStr name | Component f => VFunc f end.

Fixpoint indexed (i : nat) (items : list value) : list (string * value) :=
  match items with
  | [] => []
  | x :: rest => (NilZero.string_of_uint (Nat.to_uint i), x) :: indexed (S i) rest
  end.

(** [Object.entries(v)] for a [v] with [typeof v === 'object']; [None] when
    the call throws ([v] is [null]).  The member objects of a descriptor
    are given the reference of the descriptor; nothing compares them. *)
Definition entries_of (v : value) : option (list (string * value)) :=
  match v with
  | VObj _ entries => Some entries
  | VArr _ items => Some (indexed 0 items)
  | VNode r vn =>
      Some [("type", kind_value (type vn)); ("props", VObj r (props vn));
            ("children", VArr r (children vn))]
  | VNull => None
  | _ => Some []
  end.

Section Runtime.

(** The component functions of the program: what the function at a
    reference does with the props it is called with. *)
Variable body : ref -> list (string * value) -> prog.

(** The source text of a function, which is what [String(f)] gives. *)
Variable fn_text : ref -> string.

(** [String(v)]. *)
Fixpoint toString (v : value) : string :=
  match v with
  | VUndefined => "undefined"
  | VNull => "null"
  | VBool true => "true"
  | VBool false => "false"
  | VNum n => NilZero.string_of_int (Z.to_int n)
  | VNaN => "NaN"
  | VStr s => s
  | VFunc r => fn_text r
  | VArr _ items =>
      String.concat ","
        (List.map (fun item => match item with
                               | VNull | VUndefined => ""
                               | _ => toString item
                               end) items)
  | VObj _ _ | VNode _ _ => "[object Object]"
  end.

(** The callback of [Object.entries(vnode.props).forEach] in
    [renderToDOM], for an element of tag [vtype]: [inr] is the element
    after the binding, [inl] an exception. *)
Definition bindProp (vtype : string) (element : ElemData) (key : string) (val : value)
    : exn + ElemData :=
  if String.eqb key "key" || String.eqb key "ref" || String.eqb key "_onMounted" then
    inr element
  else if String.prefix "on" key then
    let eventName := toLowerCase (substring_from2 key) in
    match val with
    | VFunc f => inr (addEventListener eventName f element)
    | _ => inr element
    end
  else if String.eqb key "className" then
    if truthy val then inr (setClassName (toString val) element) else inr element
  else if String.eqb key "style" then
    match val with
    | VStr s => inr (setAttribute "style" s element)
    | _ =>
        if String.eqb (typeof val) "object" then
          match entries_of val with
          | Some entries =>
              inr (fold_left
                     (fun el entry =>
                        let styleKey := fst entry in
                        let styleValue := snd entry in
                        let cssKey := cssKey styleKey in
                        setStyleProperty styleKey styleValue el)
                     entries element)
          | None => inl TypeError
          end
        else inr element
    end
  else if String.eqb key "value" || String.eqb key "checked" || String.eqb key "disabled" then
    let element := setProperty key val element in
    if String.eqb key "value"
       && (String.eqb vtype "input" || String.eqb vtype "select"
           || String.eqb vtype "textarea")
    then inr (setAttribute key (toString val) element)
    else inr element
  else if negb (strict_eq val VNull) && negb (strict_eq val VUndefined)
          && negb (strict_eq val (VBool false)) then
    if String.eqb (typeof val) "boolean" then
      if truthy val then inr (setAttribute key "" element) else inr element
    else inr (setAttribute key (toString val) element)
  else inr element.

(** The whole [forEach] over the props. *)
Fixpoint bindProps (vtype : string) (element : ElemData) (entries : list (string * value))
    : exn + ElemData :=
  match entries with
  | [] => inr element
  | (key, val) :: rest =>
      match bindProp vtype element key val with
      | inr element' => bindProps vtype element' rest
      | inl e => inl e
      end
  end.

Section WithRenderer.

(** The renderer that a setter and a children loop call. *)
Variable render : value -> State -> result node.

(** [setter(newValue)], for the setter of hook [h]. *)
Definition setter_with (h : hook) (newValue : value) (st : State) : result unit :=
  let '(component, index) := h in
  if strict_eq (array_get (states_of component st) index) newValue then
    Normal tt st
  else
    let st := write_slot component index newValue st in
    match rootContainer st with
    | Some _ =>
        if truthy (rootVNode st) then
          let st := with_cursor None 0 st in
          match render (rootVNode st) st with
          | Normal newDom st =>
              let st :=
                match renderedNode st with
                | Some old =>
                    match parentNode old st with
                    | Some parent => replaceChild parent newDom old st
                    | None =>
                        match rootContainer st with
                        | Some c => appendChild c newDom (clearChildren c st)
                        | None => st
                        end
                    end
                | None =>
                    match rootContainer st with
                    | Some c => appendChild c newDom (clearChildren c st)
                    | None => st
                    end
                end in
              Normal tt (with_renderedNode (Some (node_id newDom)) st)
          | Thrown e st => Thrown e st
          | OutOfFuel => OutOfFuel
          end
        else Normal tt st
    | None => Normal tt st
    end.

(** Running the body of a component function. *)
Fixpoint run (p : prog) (st : State) : result value :=
  match p with
  | Ret descriptor => Normal descriptor st
  | Raise e => Thrown (Raised e) st
  | CallUseState initialValue k =>
      let '(h, st') := useState initialValue st in run (k h) st'
  | CallGetter h k => run (k (getter h st)) st
  | CallSetter h newValue k =>
      match setter_with h newValue st with
      | Normal _ st' => run k st'
      | Thrown e st' => Thrown e st'
      | OutOfFuel => OutOfFuel
      end
  end.

(** [children.forEach(child => parent.appendChild(renderToDOM(child)))];
    [kids] are the children that the parent under construction has. *)
Fixpoint appendChildren (children : list value) (kids : list node) (st : State)
    : result (list node) :=
  match children with
  | [] => Normal kids st
  | child :: rest =>
      match render child st with
      | Normal n st' => appendChildren rest (kids ++ nodes_of n) st'
      | Thrown e st' => Thrown e st'
      | OutOfFuel => OutOfFuel
      end
  end.

End WithRenderer.

(** [renderToDOM(vnode)].  [fuel] bounds the depth of the calls.  The call
    of a post-mount callback is recorded in [mountedCalls]; what the
    callback does with the node is its own affair, and it is taken not to
    call back into the runtime. *)
Fixpoint renderToDOM (fuel : nat) (vnode : value) (st : State) : result node :=
  match fuel with
  | 0 => OutOfFuel
  | S fuel =>
      match vnode with
      | VUndefined =>
          (call id <- fresh then fun st => Normal (Text id "") st) st
      | VStr _ | VNum _ | VNaN =>
          (call id <- fresh then fun st => Normal (Text id (toString vnode)) st) st
      | VNode _ vn =>
          match type vn with
          | Component f =>
              let st := with_cursor (Some f) 0 st in
              match run (renderToDOM fuel) (body f (props vn)) st with
              | Normal result st =>
                  let st := with_currentComponent None st in
                  renderToDOM fuel result st
              | Thrown e st => Thrown e st
              | OutOfFuel => OutOfFuel
              end
          | Tag name =>
              if String.eqb name "fragment" then
                (call id <- fresh then
                 call kids <- appendChildren (renderToDOM fuel) (children vn) [] then
                 fun st => Normal (Fragment id kids) st) st
              else
                (call id <- fresh then
                 fun st =>
                   match bindProps name (newElement name) (props vn) with
                   | inl e => Thrown e st
                   | inr element =>
                       (call kids <- appendChildren (renderToDOM fuel) (children vn) [] then
                        fun st =>
                          match member "_onMounted" (props vn) with
                          | Some (VFunc callback) =>
                              Normal (Element id element kids)
                                     (with_mountedCalls
                                        (mountedCalls st ++ [(callback, id)]) st)
                          | _ => Normal (Element id element kids) st
                          end) st
                   end) st
          end
      | VNull => Thrown TypeError st
      | VBool _ | VFunc _ | VArr _ _ | VObj _ _ =>
          (call id <- fresh then fun st => Thrown TypeError st) st
      end
  end.

(** The setter of a hook, as application code calls it. *)
Definition setter (fuel : nat) (h : hook) (newValue : value) (st : State) : result unit :=
  setter_with (renderToDOM fuel) h newValue st.

(** [mount(vnode, container)]. *)
Definition mount (fuel : nat) (vnode : value) (container : nat) (st : State) : result unit :=
  let st := with_root vnode (Some container) st in
  match renderToDOM fuel vnode st with
  | Normal domNode st => Normal tt (appendChild container domNode st)
  | Thrown e st => Thrown e st
  | OutOfFuel => OutOfFuel
  end.

(** [setGlobalRender(vnode, container)]. *)
Definition setGlobalRender (vnode : value) (container : nat) (st : State) : State :=
  with_global vnode (Some container) st.

(** [render()]. *)
Definition render (fuel : nat) (st : State) : result unit :=
  match globalContainer st with
  | Some c =>
      if truthy (globalVNode st)
      then mount fuel (globalVNode st) c (clearChildren c st)
      else Normal tt st
  | None => Normal tt st
  end.

(** [rerender(vnode, container)]. *)
Definition rerender (fuel : nat) (vnode : value) (container : nat) (st : State)
    : result unit :=
  render fuel (setGlobalRender vnode container st).

End Runtime.

(* ================================================================== *)
(** * A small program, used to run the runtime on concrete inputs *)
(* ================================================================== *)

Module Demo.

(** Component functions.
    - [Counter]: [const [get, set] = useState(props.initialCount || 0);
      return createElement('h2', null, `Count: ${get()}`)].
    - [Thrower]: raises when called.
    - [Eager]: [const [get, set] = useState(0); if (get() === 0) set(1);
      return createElement('p', null)].
    - [Pair]: two [Counter] instances with different props under one [div]. *)
Definition Counter : ref := 1%positive.
Definition Thrower : ref := 2%positive.
Definition Eager : ref := 3%positive.
Definition Pair : ref := 4%positive.

Definition fn_text (f : ref) : string := "function () { [code] }".

Definition body (f : ref) (props : list (string * value)) : prog :=
  match f with
  | 1%positive =>
      let initialCount :=
        match member "initialCount" props with
        | Some v => if truthy v then v else VNum 0
        | None => VNum 0
        end in
      CallUseState initialCount (fun h =>
      CallGetter h (fun count =>
      Ret (VNode 10 (createElement (Tag "h2") None
                       [VStr (String.append "Count: " (toString fn_text count))]))))
  | 2%positive => Raise (VStr "boom")
  | 3%positive =>
      CallUseState (VNum 0) (fun h =>
      CallGetter h (fun v =>
      if strict_eq v (VNum 0)
      then CallSetter h (VNum 1) (Ret (VNode 11 (createElement (Tag "p") None [])))
      else Ret (VNode 11 (createElement (Tag "p") None []))))
  | 4%positive =>
      Ret (VNode 12 (createElement (Tag "div") None
             [VNode 13 (createElement (Component Counter)
                                      (Some [("initialCount", VNum 5)]) []);
              VNode 14 (createElement (Component Counter)
                                      (Some [("label", VStr "second")]) [])]))
  | _ => Ret VUndefined
  end.

(** The same program without [Eager]: no body calls a setter. *)
Definition calm (f : ref) (props : list (string * value)) : prog :=
  if Pos.eqb f Eager then Ret VUndefined else body f props.

(** Descriptors of the program. *)
Definition counter_app : value :=
  VNode 20 (createElement (Component Counter) (Some []) []).
Definition thrower_app : value :=
  VNode 21 (createElement (Component Thrower) None []).
Definition pair_app : value :=
  VNode 23 (createElement (Component Pair) None []).
Definition hidden_input : value :=
  VNode 27 (createElement (Tag "input")
              (Some [("type", VStr "text"); ("hidden", VBool true);
                     ("disabled", VBool false)]) []).

(** A document with one container, number 0, that holds a text node. *)
Definition page : State := initial {[ 0 := [Text 0 "old"] ]} 1.

(** An empty document with one container. *)
Definition blank : State := initial {[ 0 := [] ]} 0.

End Demo.

(* ================================================================== *)
(** * The claims of the specification, as they are worded *)
(* ================================================================== *)

(** The claim of C3 as it is worded: a call of [useState] at a pair that
    was initialised before leaves the slot as it is, whatever it holds. *)
Definition later_call_keeps_slot (st : State) (initialValue : value) : Prop :=
  let h := (currentComponent st, stateIndex st) in
  getter h (snd (useState initialValue st)) = getter h st.

(** The claim of C9 as it is worded: [useState] with no component under the
    cursor fails. *)
Definition fails_outside_render (st : State) (initialValue : value) : Prop :=
  currentComponent st = None ->
  exists e st', useState_call initialValue st = Thrown e st'.


(** The claim of C7 as it is worded, for one key: an element rendered
    from a descriptor that sets [key] to [true] has the attribute [key],
    with an empty value. *)
Definition boolean_attribute_law (body : ref -> list (string * value) -> prog)
    (fn_text : ref -> string) (tag key : string) : Prop :=
  forall fuel r st id element kids st',
    renderToDOM body fn_text fuel
      (VNode r (createElement (Tag tag) (Some [(key, VBool true)]) [])) st
    = Normal (Element id element kids) st' ->
    member key (attributes element) = Some "".

(** The keys that reach the last branch of the property binding: not
    reserved, not an event binding, not [className], [style], [value],
    [checked] or [disabled]. *)
Definition plain_key (key : string) : bool :=
  negb (String.eqb key "key" || String.eqb key "ref" || String.eqb key "_onMounted")
  && negb (String.prefix "on" key)
  && negb (String.eqb key "className")
  && negb (String.eqb key "style")
  && negb (String.eqb key "value" || String.eqb key "checked" || String.eqb key "disabled").



(** A body that calls no setter while it runs. *)
Fixpoint set_free (p : prog) : Prop :=
  match p with
  | Ret _ | Raise _ => True
  | CallUseState _ k => forall h, set_free (k h)
  | CallGetter _ k => forall v, set_free (k v)
  | CallSetter _ _ _ => False
  end.

(** [same_document st st']: between [st] and [st'] the children of every
    container, the last rendered node and the root binding are the same. *)
Definition same_document (st st' : State) : Prop :=
  containers st' = containers st /\
  renderedNode st' = renderedNode st /\
  rootVNode st' = rootVNode st /\
  rootContainer st' = rootContainer st.

(** A state without its cursor, and an outcome without the cursor of its
    state: what is left to compare when two runs differ in the cursor only. *)
Definition forget_cursor (st : State) : State := with_cursor None 0 st.

Definition forget_outcome_cursor {A : Type} (r : result A) : result A :=
  match r with
  | Normal a st => Normal a (forget_cursor st)
  | Thrown e st => Thrown e (forget_cursor st)
  | OutOfFuel => OutOfFuel
  end.

(** [settled r r']: if the run [r] came to an end, the run [r'] (the same
    call with more steps allowed) came to the same end. *)
Definition settled {A : Type} (r r' : result A) : Prop :=
  match r with
  | OutOfFuel => True
  | _ => r' = r
  end.

(* ================================================================== *)
(** * More of the runtime, and what the later properties speak of *)
(* ================================================================== *)

(** [Fragment_component(props)]. *)
Definition Fragment_component (props : list (string * value)) : vnode :=
  let children :=
    match member "children" props with
    | Some (VArr _ items) => items
    | Some v => if truthy v then [v] else []
    | None => []
    end in
  createFragment None children.

(** [ends_in r st']: the call came to an end, by a return or by a throw,
    in the state [st']. *)
Definition ends_in {A : Type} (r : result A) (st' : State) : Prop :=
  match r with
  | Normal _ st => st = st'
  | Thrown _ st => st = st'
  | OutOfFuel => False
  end.

(** [useState] called once for each of the given initial values, in order,
    as a component body with that many hooks does. *)
Fixpoint useStates (initialValues : list value) (st : State) : list hook * State :=
  match initialValues with
  | [] => ([], st)
  | initialValue :: rest =>
      let '(h, st1) := useState initialValue st in
      let '(hs, st2) := useStates rest st1 in
      (h :: hs, st2)
  end.

(** The identities of the children of all containers are below the next
    identity to be given out: no node of the document is taken for a new
    one. *)
Definition document_known (st : State) : Prop :=
  forall c kids kid,
    containers st !! c = Some kids -> In kid kids -> node_id kid < nextNode st.

(** All the identities in a tree, the root first. *)
Fixpoint ids (n : node) : list nat :=
  match n with
  | Text i _ => [i]
  | Element i _ kids => i :: flat_map ids kids
  | Fragment i kids => i :: flat_map ids kids
  end.

(** The tags on which [value] is written as an attribute as well. *)
Definition mirrors_value (tag : string) : bool :=
  String.eqb tag "input" || String.eqb tag "select" || String.eqb tag "textarea".

Module Sample.

(** [createElement('input', { type: 'text', value: undefined, onClick: f,
    only: 'x', className: 0 })]. *)
Definition input_props : list (string * value) :=
  [("type", VStr "text"); ("value", VUndefined); ("onClick", VFunc 40);
   ("only", VStr "x"); ("className", VNum 0)].

Definition odd_input : value :=
  VNode 41 (createElement (Tag "input") (Some input_props) []).

Definition odd_input_element : ElemData :=
  addEventListener "click" 40
    (setAttribute "value" "undefined"
       (setProperty "value" VUndefined
          (setAttribute "type" "text" (newElement "input")))).

End Sample.

(** The values that are neither [undefined], a string, a number nor a
    descriptor. *)
Definition unrenderable (v : value) : Prop :=
  match v with
  | VNull | VBool _ | VFunc _ | VArr _ _ | VObj _ _ => True
  | _ => False
  end.

(** [keeps_slots st st']: every slot that holds a value in [st] holds the
    same value in [st']. *)
Definition keeps_slots (st st' : State) : Prop :=
  forall h, getter h st <> VUndefined -> getter h st' = getter h st.

(** [quiet st st']: from [st] to [st'] the document and the root binding
    are untouched, no slot that held a value has changed, and node
    identities were only given out. *)
Definition quiet (st st' : State) : Prop :=
  same_document st st' /\ keeps_slots st st' /\ nextNode st <= nextNode st'.

(** The state in which the setter of [h], called with a new value, starts
    the re-render. *)
Definition rerender_start (h : hook) (v : value) (st : State) : State :=
  with_cursor None 0 (write_slot (fst h) (snd h) v st).

Module Scene.

(** The state that a call ends in ([otherwise] if it does not end). *)
Definition after {A : Type} (r : result A) (otherwise : State) : State :=
  match r with
  | Normal _ st => st
  | Thrown _ st => st
  | OutOfFuel => otherwise
  end.








(** [Listing]: [const [get] = useState(0);
    return createFragment(null, 'n=', get())]; every reference is this
    function. *)
Definition listing (f : ref) (props : list (string * value)) : prog :=
  CallUseState (VNum 0) (fun h =>
  CallGetter h (fun v =>
  Ret (VNode 52 (createFragment None [VStr "n="; v])))).

Definition listing_app : value :=
  VNode 53 (createElement (Component 1) None []).

Definition listing_mounted : State :=
  after (mount listing Demo.fn_text 5 listing_app 0 Demo.page) Demo.page.

End Scene.

(* ================================================================== *)
(** * The todo application (todo-app.tsx): the state changes of [TodoApp] *)
(* ================================================================== *)

(** The functions below are the closures of [TodoApp]; each computes a new
    array from [getTodos()] and hands it to [setTodos].  They are given here
    as the function from the current array to the new one.  The clock reads
    of [addTodo] are parameters. *)
Module TodoApp.

Record Todo := mkTodo {
  id : Z;
  text : string;
  completed : bool;
  createdAt : Z;
}.

(** [addTodo(text)], with [now] for [Date.now()] and [created] for
    [new Date()]. *)
Definition addTodo (now created : Z) (text : string) (currentTodos : list Todo)
    : list Todo :=
  currentTodos ++ [mkTodo now text false created].

(** [toggleTodo(id)]. *)
Definition toggleTodo (id : Z) (currentTodos : list Todo) : list Todo :=
  map (fun todo =>
         if Z.eqb (TodoApp.id todo) id
         then mkTodo (TodoApp.id todo) (text todo) (negb (completed todo)) (createdAt todo)
         else todo)
      currentTodos.

(** [deleteTodo(id)]. *)
Definition deleteTodo (id : Z) (currentTodos : list Todo) : list Todo :=
  List.filter (fun todo => negb (Z.eqb (TodoApp.id todo) id)) currentTodos.

(** [clearCompleted()]. *)
Definition clearCompleted (currentTodos : list Todo) : list Todo :=
  List.filter (fun todo => negb (completed todo)) currentTodos.

(** The statistics that the body computes from [todos]. *)
Definition totalCount (todos : list Todo) : Z := Z.of_nat (length todos).

Definition completedCount (todos : list Todo) : Z :=
  Z.of_nat (length (List.filter (fun t => completed t) todos)).

Definition activeCount (todos : list Todo) : Z :=
  (totalCount todos - completedCount todos)%Z.

End TodoApp.

(* ================================================================== *)
(** * The data service (data-service.ts) *)
(* ================================================================== *)

(** The service keeps one array of charts, [this.data]; the methods are
    given as functions of that array.  Values are the integral numbers.
    The value of the point that [simulateUpdate] adds is decided by
    [Math.random()] and rounded; it is a parameter here, and so is the
    clock.  [getSummary] is left out: its average is a floating-point
    quotient. *)
Module DataService.

Inductive ChartType := bar | line | pie.

Record DataPoint := mkPoint {
  label : string;
  value : Z;
  timestamp : option Z;
}.

Record ChartData := mkChart {
  title : string;
  type : ChartType;
  data : list DataPoint;
  category : option string;
}.

Definition ChartType_eqb (a b : ChartType) : bool :=
  match a, b with
  | bar, bar | line, line | pie, pie => true
  | _, _ => false
  end.

(** [d.category === category]. *)
Definition has_category (category : string) (d : ChartData) : bool :=
  match DataService.category d with
  | Some c => String.eqb c category
  | None => false
  end.

(** [generateMockData()], from the empty array. *)
Definition mockData : list ChartData :=
  [ mkChart "Monthly Sales" bar
      [mkPoint "Jan" 65 None; mkPoint "Feb" 59 None; mkPoint "Mar" 80 None;
       mkPoint "Apr" 81 None; mkPoint "May" 56 None; mkPoint "Jun" 55 None]
      (Some "sales");
    mkChart "Weekly Visitors" line
      [mkPoint "Mon" 100 None; mkPoint "Tue" 120 None; mkPoint "Wed" 150 None;
       mkPoint "Thu" 130 None; mkPoint "Fri" 180 None; mkPoint "Sat" 160 None;
       mkPoint "Sun" 110 None]
      (Some "visitors");
    mkChart "Market Share" pie
      [mkPoint "Product A" 30 None; mkPoint "Product B" 25 None;
       mkPoint "Product C" 20 None; mkPoint "Product D" 15 None;
       mkPoint "Others" 10 None]
      (Some "market") ].

(** [getDataByCategory(category)]. *)
Definition getDataByCategory (category : string) (this_data : list ChartData)
    : option ChartData :=
  List.find (has_category category) this_data.

(** [getDataByType(type)]. *)
Definition getDataByType (t : ChartType) (this_data : list ChartData) : list ChartData :=
  List.filter (fun d => ChartType_eqb (type d) t) this_data.

(** The points of a chart after the update: the oldest is shifted out when
    there are ten or more, the new one is pushed. *)
Definition pushed (newPoint : DataPoint) (points : list DataPoint) : list DataPoint :=
  (if Nat.leb 10 (length points) then tl points else points) ++ [newPoint].

(** The array after the chart that [find] returned has been changed in
    place: the first chart of the category gets the new points. *)
Fixpoint update_first (category : string) (newPoint : DataPoint)
    (this_data : list ChartData) : list ChartData :=
  match this_data with
  | [] => []
  | d :: rest =>
      if has_category category d
      then mkChart (title d) (type d) (pushed newPoint (data d)) (DataService.category d)
             :: rest
      else d :: update_first category newPoint rest
  end.

(** [simulateUpdate(category, variation)]: the point returned ([None] for
    [null]) and the array afterwards.  [rounded] is
    [Math.round(Math.max(0, lastPoint.value + randomVariation))] and [now]
    is [new Date()]. *)
Definition simulateUpdate (category : string) (rounded now : Z)
    (this_data : list ChartData) : option DataPoint * list ChartData :=
  match getDataByCategory category this_data with
  | None => (None, this_data)
  | Some chartData =>
      match rev (data chartData) with
      | [] => (None, this_data)
      | lastPoint :: _ =>
          let newPoint :=
            mkPoint (String.append (label lastPoint) "+") rounded (Some now) in
          (Some newPoint, update_first category newPoint this_data)
      end
  end.


End DataService.

(* ================================================================== *)
(** * The component calls of a render *)
(* ================================================================== *)

(** What a component function meets while it runs: the hooks that its
    calls of [useState] return, and the values that its calls of a getter
    return, in the order of the calls. *)
Inductive event :=
| Issued (h : hook)
| Read (h : hook) (x : value).


(** A call of a component function by the renderer: the function, the
    props it is called with, and what it met. *)
Record invocation := mkInvocation {
  callee : ref;
  arguments : list (string * value);
  met : list event;
}.

Section Logged.

Variable body : ref -> list (string * value) -> prog.
Variable fn_text : ref -> string.

Section WithRenderer.

Variable render : value -> State -> result node.

(** [run], with what the body meets. *)
Fixpoint run_logged (p : prog) (st : State) : result value * list event :=
  match p with
  | Ret descriptor => (Normal descriptor st, [])
  | Raise e => (Thrown (Raised e) st, [])
  | CallUseState initialValue k =>
      let '(h, st') := useState initialValue st in
      let '(r, log) := run_logged (k h) st' in
      (r, Issued h :: log)
  | CallGetter h k =>
      let '(r, log) := run_logged (k (getter h st)) st in
      (r, Read h (getter h st) :: log)
  | CallSetter h newValue k =>
      match setter_with render h newValue st with
      | Normal _ st' => run_logged k st'
      | Thrown e st' => (Thrown e st', [])
      | OutOfFuel => (OutOfFuel, [])
      end
  end.

End WithRenderer.

(** [appendChildren], with the calls made for the children. *)
Fixpoint appendChildren_logged (render : value -> State -> result node * list invocation)
    (children : list value) (kids : list node) (st : State)
    : result (list node) * list invocation :=
  match children with
  | [] => (Normal kids st, [])
  | child :: rest =>
      let '(r, log) := render child st in
      match r with
      | Normal n st' =>
          let '(r', log') := appendChildren_logged render rest (kids ++ nodes_of n) st' in
          (r', log ++ log')
      | Thrown e st' => (Thrown e st', log)
      | OutOfFuel => (OutOfFuel, log)
      end
  end.

(** [renderToDOM], with the component calls that it makes, in order.  A
    re-render that a setter starts inside a body has calls of its own;
    they are not part of this list. *)
Fixpoint renderToDOM_logged (fuel : nat) (vnode : value) (st : State)
    : result node * list invocation :=
  match fuel with
  | 0 => (OutOfFuel, [])
  | S fuel =>
      match vnode with
      | VNode _ vn =>
          match type vn with
          | Component f =>
              let st := with_cursor (Some f) 0 st in
              let '(r, seen) :=
                run_logged (renderToDOM body fn_text fuel) (body f (props vn)) st in
              match r with
              | Normal result st =>
                  let st := with_currentComponent None st in
                  let '(r', log) := renderToDOM_logged fuel result st in
                  (r', mkInvocation f (props vn) seen :: log)
              | Thrown e st => (Thrown e st, [mkInvocation f (props vn) seen])
              | OutOfFuel => (OutOfFuel, [mkInvocation f (props vn) seen])
              end
          | Tag name =>
              let id := nextNode st in
              let st := with_nextNode (S (nextNode st)) st in
              if String.eqb name "fragment" then
                let '(r, log) :=
                  appendChildren_logged (renderToDOM_logged fuel) (children vn) [] st in
                (match r with
                 | Normal kids st => Normal (Fragment id kids) st
                 | Thrown e st => Thrown e st
                 | OutOfFuel => OutOfFuel
                 end, log)
              else
                match bindProps fn_text name (newElement name) (props vn) with
                | inl e => (Thrown e st, [])
                | inr element =>
                    let '(r, log) :=
                      appendChildren_logged (renderToDOM_logged fuel) (children vn) [] st in
                    (match r with
                     | Normal kids st =>
                         match member "_onMounted" (props vn) with
                         | Some (VFunc callback) =>
                             Normal (Element id element kids)
                                    (with_mountedCalls
                                       (mountedCalls st ++ [(callback, id)]) st)
                         | _ => Normal (Element id element kids) st
                         end
                     | Thrown e st => Thrown e st
                     | OutOfFuel => OutOfFuel
                     end, log)
                end
          end
      | _ => (renderToDOM body fn_text (S fuel) vnode st, [])
      end
  end.

(** The component calls of the re-render that [setter(newValue)] makes,
    for the setter of hook [h]: none when the value is not new or no root
    is bound. *)
Definition setter_calls (fuel : nat) (h : hook) (newValue : value) (st : State)
    : list invocation :=
  let '(component, index) := h in
  if strict_eq (array_get (states_of component st) index) newValue then []
  else
    let st := write_slot component index newValue st in
    match rootContainer st with
    | Some _ =>
        if truthy (rootVNode st)
        then snd (renderToDOM_logged fuel (rootVNode st) (with_cursor None 0 st))
        else []
    | None => []
    end.


End Logged.

Module Shared.

(** Two counters with different props under one [div], mounted in the
    empty page: the first has initialised the slot that both use to 5. *)
Definition pair_mounted : State :=
  Scene.after (mount Demo.calm Demo.fn_text 6 Demo.pair_app 0 Demo.blank) Demo.blank.

(** The calls of the render that [mount] has made for it. *)
Definition pair_mount_calls : list invocation :=
  snd (renderToDOM_logged Demo.calm Demo.fn_text 6 Demo.pair_app
         (with_root Demo.pair_app (Some 0) Demo.blank)).

End Shared.

Module Rash.

(** [Rash]: [const [get, set] = useState(0);
    if (get() === 0) { set(1); throw 'late'; }
    return createElement('p', null)]; every reference is this function. *)
Definition rash (f : ref) (props : list (string * value)) : prog :=
  CallUseState (VNum 0) (fun h =>
  CallGetter h (fun v =>
  if strict_eq v (VNum 0)
  then CallSetter h (VNum 1) (Raise (VStr "late"))
  else Ret (VNode 60 (createElement (Tag "p") None [])))).

Definition rash_app : value :=
  VNode 61 (createElement (Component 1) None []).

(** [Hasty]: [const [a, setA] = useState(0); if (a() === 0) setA(1);
    const [b] = useState(7); return createElement('p', null)]; every
    reference is this function. *)
Definition hasty (f : ref) (props : list (string * value)) : prog :=
  CallUseState (VNum 0) (fun ha =>
  CallGetter ha (fun a =>
  if strict_eq a (VNum 0)
  then CallSetter ha (VNum 1)
         (CallUseState (VNum 7) (fun hb =>
          Ret (VNode 62 (createElement (Tag "p") None []))))
  else CallUseState (VNum 7) (fun hb =>
       Ret (VNode 62 (createElement (Tag "p") None []))))).

End Rash.

(* ================================================================== *)
(** * The style object of the host *)
(* ================================================================== *)

(** [element.style] is the host's [CSSStyleDeclaration]: one block of
    declarations, keyed by CSS property name, and the members by which
    script reaches it.  The renderer only ever assigns to a member,
    [element.style[styleKey] = styleValue]; what the assignment does to
    the block is the host's affair, laid down in CSSOM.  It is given here
    for a host that is known by the properties it supports, by the
    longhand properties that each of them stands for (itself, for a
    longhand), and by its parser of values, which gives the declarations
    that a text stands for when the text is valid for the property. *)
Record StyleHost := mkStyleHost {
  supported : string -> bool;
  longhands : string -> list string;
  parse : string -> string -> option (list (string * string));
}.

Definition is_lower (c : ascii) : bool :=
  Nat.leb 97 (nat_of_ascii c) && Nat.leb (nat_of_ascii c) 122.

Definition is_digit (c : ascii) : bool :=
  Nat.leb 48 (nat_of_ascii c) && Nat.leb (nat_of_ascii c) 57.

Definition upper_ascii (c : ascii) : ascii :=
  if is_lower c then ascii_of_nat (nat_of_ascii c - 32) else c.

(** CSSOM, "CSS property to IDL attribute": a dash is dropped and the
    character after it is put in upper case. *)
Fixpoint idl_attribute_from (uppercase_next : bool) (property : string) : string :=
  match property with
  | EmptyString => EmptyString
  | String c rest =>
      if Ascii.eqb c "-" then idl_attribute_from true rest
      else String (if uppercase_next then upper_ascii c else c)
                  (idl_attribute_from false rest)
  end.

Definition css_property_to_idl_attribute (lowercase_first : bool) (property : string)
    : string :=
  idl_attribute_from false
    (if lowercase_first then substring 1 (String.length property - 1) property
     else property).

(** CSSOM, "IDL attribute to CSS property": an upper-case letter becomes a
    dash and the letter in lower case. *)
Fixpoint css_property_from (attribute : string) : string :=
  match attribute with
  | EmptyString => EmptyString
  | String c rest =>
      if is_upper c then String "-" (String (lower_ascii c) (css_property_from rest))
      else String c (css_property_from rest)
  end.

Definition idl_attribute_to_css_property (dash_prefix : bool) (attribute : string)
    : string :=
  if dash_prefix then String "-" (css_property_from attribute)
  else css_property_from attribute.


Fixpoint all_digits (s : string) : bool :=
  match s with
  | EmptyString => true
  | String c rest => is_digit c && all_digits rest
  end.

(** What a name is on the style object.  A supported property is reached
    under its own name, under its camel-cased attribute and, when it
    starts with [-webkit-], under its webkit-cased attribute; [float] also
    under [cssFloat].  [cssText] rewrites the whole block, and [length],
    [parentRule] and the indices cannot be assigned: these are not
    covered.  Any other name is an ordinary property of the object, and
    the block knows nothing of it. *)
Inductive style_member :=
| Accessor (property : string)
| Reserved
| Ordinary.

Definition style_member_of (host : StyleHost) (name : string) : style_member :=
  if String.eqb name "cssText" || String.eqb name "length"
     || String.eqb name "parentRule"
     || (negb (String.eqb name "") && all_digits name)
  then Reserved
  else if String.eqb name "cssFloat" then Accessor "float"
  else if supported host name then Accessor name
  else if supported host (idl_attribute_to_css_property false name)
          && String.eqb (css_property_to_idl_attribute false
                           (idl_attribute_to_css_property false name)) name
  then Accessor (idl_attribute_to_css_property false name)
  else if String.prefix "-webkit-" (idl_attribute_to_css_property true name)
          && supported host (idl_attribute_to_css_property true name)
          && String.eqb (css_property_to_idl_attribute true
                           (idl_attribute_to_css_property true name)) name
  then Accessor (idl_attribute_to_css_property true name)
  else Ordinary.

Definition removeProperty (property : string) (block : list (string * string))
    : list (string * string) :=
  List.filter (fun declaration => negb (String.eqb (fst declaration) property)) block.

(** [style.setProperty(property, text)], without a priority: nothing for a
    property that the host does not support or a text that it does not
    parse; the empty text removes the property. *)
Definition style_setProperty (host : StyleHost) (property text : string)
    (block : list (string * string)) : list (string * string) :=
  if supported host property then
    if String.eqb text "" then
      fold_left (fun b longhand => removeProperty longhand b)
                (longhands host property) block
    else
      match parse host property text with
      | Some declarations =>
          fold_left (fun b declaration => assign (fst declaration) (snd declaration) b)
                    declarations block
      | None => block
      end
  else block.


Section StyleObject.

Variable fn_text : ref -> string.
Variable host : StyleHost.

(** The text that the host makes of an assigned value: [null] gives the
    empty text, any other value its string form. *)
Definition css_text (v : value) : string :=
  match v with
  | VNull => ""
  | _ => toString fn_text v
  end.

(** [style[name] = v]; [None] for a member that is not covered. *)
Definition style_assign (name : string) (v : value) (block : list (string * string))
    : option (list (string * string)) :=
  match style_member_of host name with
  | Accessor property => Some (style_setProperty host property (css_text v) block)
  | Ordinary => Some block
  | Reserved => None
  end.

(** The block after the assignments that the renderer made, in their
    order. *)
Fixpoint declared (writes : list (string * value)) (block : list (string * string))
    : option (list (string * string)) :=
  match writes with
  | [] => Some block
  | (name, v) :: rest =>
      match style_assign name v block with
      | Some block' => declared rest block'
      | None => None
      end
  end.


End StyleObject.

Module Browser.

(** A host with six properties, one of them a shorthand; it takes every
    text but [inherit none] as valid. *)
Definition host : StyleHost :=
  mkStyleHost
    (fun property =>
       String.eqb property "background-color" || String.eqb property "color"
       || String.eqb property "font-size" || String.eqb property "gap"
       || String.eqb property "row-gap" || String.eqb property "column-gap")
    (fun property =>
       if String.eqb property "gap" then ["row-gap"; "column-gap"] else [property])
    (fun property text =>
       if String.eqb text "inherit none" then None
       else if String.eqb property "gap"
            then Some [("row-gap", text); ("column-gap", text)]
            else Some [(property, text)]).

(** [createElement('div', { style: { backgroundColor: 'red',
    'background-color': 'blue', fontSize: '16px', fooBar: 1,
    rowGap: '1px', gap: '10px' } })]. *)
Definition aliased_div : value :=
  VNode 70 (createElement (Tag "div")
              (Some [("style", VObj 71 [("backgroundColor", VStr "red");
                                        ("background-color", VStr "blue");
                                        ("fontSize", VStr "16px");
                                        ("fooBar", VNum 1);
                                        ("rowGap", VStr "1px");
                                        ("gap", VStr "10px")])]) []).

End Browser.
(* ================================================================== *)
(** * Properties of the factory *)
(* ================================================================== *)

Lemma flat_spliced (args : list value) : spliced args (flat args).
Proof.
  induction args as [|child rest IH]; [constructor|].
  unfold flat in *. cbn [flat_map].
  destruct child; try (apply spliced_other; [intros; discriminate | exact IH]).
  apply spliced_array. exact IH.
Qed.

Lemma nullish_test (v : value) :
  negb (strict_eq v VNull) && negb (strict_eq v VUndefined) = false <-> nullish v.
Proof.
  unfold nullish. destruct v; cbn; split; intros H; try discriminate; auto;
    destruct H as [H|H]; discriminate.
Qed.

Lemma filter_kept (l : list value) :
  kept l (List.filter
            (fun child => negb (strict_eq child VNull) && negb (strict_eq child VUndefined))
            l).
Proof.
  induction l as [|v l IH]; [constructor|].
  cbn [List.filter].
  destruct (negb (strict_eq v VNull) && negb (strict_eq v VUndefined)) eqn:E.
  - apply kept_keep; [|exact IH]. intros Hn. apply nullish_test in Hn. congruence.
  - apply kept_drop; [|exact IH]. apply nullish_test. exact E.
Qed.

(** C6. [createElement] keeps the kind, turns [props = null] into the empty
    mapping (and leaves any other props as they are), and its children are the
    arguments flattened one level with exactly the [null]/[undefined] entries
    removed, the others in call order.  The factory is a function of its
    arguments alone: it neither reads nor writes the runtime state. *)
Theorem createElement_normalizes (k : kind) (p : option (list (string * value)))
    (args : list value) :
  type (createElement k p args) = k /\
  props (createElement k None args) = [] /\
  (forall ps, props (createElement k (Some ps) args) = ps) /\
  exists flattened,
    spliced args flattened /\ kept flattened (children (createElement k p args)).
Proof.
  repeat split.
  exists (flat args). split; [apply flat_spliced | apply filter_kept].
Qed.

(** The two relations of the specification leave no choice: they fix the
    children of the descriptor. *)
Lemma spliced_functional (args out1 out2 : list value) :
  spliced args out1 -> spliced args out2 -> out1 = out2.
Proof.
  intros H1. revert out2.
  induction H1 as [|r items rest out H1 IH|child rest out Hc H1 IH]; intros out2 H2;
    inversion H2; subst; try reflexivity.
  - f_equal. by apply IH.
  - exfalso. eapply H3. reflexivity.
  - exfalso. eapply Hc. reflexivity.
  - f_equal. by apply IH.
Qed.

Lemma kept_functional (l out1 out2 : list value) :
  kept l out1 -> kept l out2 -> out1 = out2.
Proof.
  intros H1. revert out2.
  induction H1 as [|v l out Hn H1 IH|v l out Hn H1 IH]; intros out2 H2;
    inversion H2; subst; try reflexivity; try contradiction.
  - by apply IH.
  - f_equal. by apply IH.
Qed.

Lemma createElement_children_unique (k : kind) (p : option (list (string * value)))
    (args flattened out : list value) :
  spliced args flattened -> kept flattened out ->
  children (createElement k p args) = out.
Proof.
  intros Hs Hk.
  rewrite (spliced_functional _ _ _ Hs (flat_spliced args)) in Hk.
  exact (kept_functional _ _ _ (filter_kept (flat args)) Hk).
Qed.

(** The arguments of the repository's own test 1.3, and an array argument
    next to a [null]: the array is spliced in place, and an array inside it
    stays an entry. *)
Example createElement_filters :
  children (createElement (Tag "div") None [VStr "A"; VUndefined; VStr "B"; VStr "C"])
  = [VStr "A"; VStr "B"; VStr "C"].
Proof. reflexivity. Qed.

Example createElement_splices_one_level :
  children (createElement (Tag "ul") None
              [VStr "a"; VArr 1 [VNull; VNum 2; VArr 2 [VStr "deep"]]; VNull; VBool false])
  = [VStr "a"; VNum 2; VArr 2 [VStr "deep"]; VBool false].
Proof. reflexivity. Qed.

(* ================================================================== *)
(** * Properties of the state store *)
(* ================================================================== *)

Lemma strict_eq_undefined (v : value) :
  strict_eq v VUndefined = true <-> v = VUndefined.
Proof. destruct v; cbn; split; intros H; congruence. Qed.

Lemma array_get_set_eq (a : list value) (i : nat) (v : value) :
  array_get (array_set a i v) i = v.
Proof.
  unfold array_get, array_set.
  destruct (Nat.ltb i (length a)) eqn:E.
  - apply Nat.ltb_lt in E. by rewrite list_lookup_insert_eq.
  - apply Nat.ltb_ge in E.
    rewrite lookup_app_r by lia.
    rewrite lookup_app_r by (rewrite length_replicate; lia).
    rewrite length_replicate.
    replace (i - length a - (i - length a)) with 0 by lia. reflexivity.
Qed.

Lemma array_get_set_ne (a : list value) (i j : nat) (v : value) :
  i <> j -> array_get (array_set a i v) j = array_get a j.
Proof.
  intros Hne. unfold array_get, array_set.
  destruct (Nat.ltb i (length a)) eqn:E.
  - by rewrite list_lookup_insert_ne.
  - apply Nat.ltb_ge in E.
    destruct (decide (j < length a)) as [Hj|Hj].
    + by rewrite lookup_app_l.
    + rewrite (lookup_ge_None_2 a j) by lia.
      rewrite lookup_app_r by lia.
      destruct (decide (j - length a < i - length a)) as [Hk|Hk].
      * rewrite lookup_app_l by (rewrite length_replicate; lia).
        rewrite lookup_replicate_2 by lia. reflexivity.
      * rewrite lookup_app_r by (rewrite length_replicate; lia).
        rewrite length_replicate.
        rewrite lookup_ge_None_2; [reflexivity | cbn; lia].
Qed.

Lemma getter_write_slot_eq (c : option ref) (i : nat) (v : value) (st : State) :
  getter (c, i) (write_slot c i v st) = v.
Proof.
  unfold getter, write_slot, states_of. cbn.
  rewrite lookup_insert_eq. cbn. apply array_get_set_eq.
Qed.

Lemma getter_write_slot_ne (c c' : option ref) (i i' : nat) (v : value) (st : State) :
  (c', i') <> (c, i) -> getter (c', i') (write_slot c i v st) = getter (c', i') st.
Proof.
  intros Hne. unfold getter, write_slot, states_of. cbn.
  destruct (decide (c = c')) as [->|Hc].
  - rewrite lookup_insert_eq. cbn. apply array_get_set_ne. congruence.
  - by rewrite lookup_insert_ne.
Qed.

(** Registering an empty array for a component changes no slot. *)
Lemma getter_register (c : option ref) (h : hook) (st : State) :
  componentStates st !! c = None ->
  getter h (with_componentStates (<[c := []]> (componentStates st)) st) = getter h st.
Proof.
  intros Hc. destruct h as [c' i]. unfold getter, states_of. cbn.
  destruct (decide (c = c')) as [->|Hne].
  - rewrite lookup_insert_eq, Hc. reflexivity.
  - by rewrite lookup_insert_ne.
Qed.

(** When the module is loaded every slot reads [undefined]; a slot keeps
    reading so until [useState] or a setter writes it (the two lemmas
    above, for the writes to other slots). *)
Lemma getter_initial (doc : gmap nat (list node)) (next : nat) (h : hook) :
  getter h (initial doc next) = VUndefined.
Proof. destruct h as [c i]. unfold getter, states_of. cbn. by rewrite lookup_empty. Qed.

(** What a call of [useState] does to the table: the hook is the pair of
    the cursor, the slot of the hook is initialised when it reads
    [undefined] and kept otherwise, and every other slot reads as before. *)
Lemma useState_spec (initialValue : value) (st : State) :
  let h := (currentComponent st, stateIndex st) in
  fst (useState initialValue st) = h /\
  getter h (snd (useState initialValue st))
    = (if strict_eq (getter h st) VUndefined then initialValue else getter h st) /\
  (forall h', h' <> h -> getter h' (snd (useState initialValue st)) = getter h' st) /\
  currentComponent (snd (useState initialValue st)) = currentComponent st /\
  stateIndex (snd (useState initialValue st)) = S (stateIndex st).
Proof.
  cbn zeta. unfold useState.
  set (c := currentComponent st). set (i := stateIndex st).
  set (st1 := match componentStates st !! c with
              | Some _ => st
              | None => with_componentStates (<[c := []]> (componentStates st)) st
              end).
  assert (Hg : forall h', getter h' st1 = getter h' st).
  { intros h'. subst st1. destruct (componentStates st !! c) eqn:E; [reflexivity|].
    by apply getter_register. }
  assert (Hi : stateIndex st1 = i /\ currentComponent st1 = c).
  { subst st1. destruct (componentStates st !! c); split; reflexivity. }
  destruct Hi as [Hi Hc]. rewrite Hi.
  change (array_get (states_of c st1) i) with (getter (c, i) st1).
  rewrite Hg.
  destruct (strict_eq (getter (c, i) st) VUndefined) eqn:E; cbn.
  - repeat split; auto.
    + change (getter (c, i) (write_slot c i initialValue st1) = initialValue).
      apply getter_write_slot_eq.
    + intros [c' i'] Hne.
      change (getter (c', i') (write_slot c i initialValue st1) = getter (c', i') st).
      rewrite getter_write_slot_ne by exact Hne. apply Hg.
  - repeat split; auto.
    + change (getter (c, i) st1 = getter (c, i) st). apply Hg.
    + intros h' _. change (getter h' st1 = getter h' st). apply Hg.
Qed.

(** When the slot under the cursor holds a value other than [undefined],
    the state after [useState] does not depend on the argument. *)
Lemma useState_defined_ignores (init init' : value) (st : State) :
  strict_eq (getter (currentComponent st, stateIndex st) st) VUndefined = false ->
  useState init st = useState init' st.
Proof.
  intros Hdef. unfold useState.
  set (c := currentComponent st) in *.
  set (st1 := match componentStates st !! c with
              | Some _ => st
              | None => with_componentStates (<[c := []]> (componentStates st)) st
              end).
  assert (Hg : getter (c, stateIndex st1) st1 = getter (c, stateIndex st) st).
  { subst st1. destruct (componentStates st !! c) eqn:E; [reflexivity|].
    cbn. by apply getter_register. }
  unfold getter in Hg at 1. cbn [fst snd] in Hg. rewrite Hg, Hdef. reflexivity.
Qed.


(** C3, as worded, fails: [Counter]'s slot 0 is initialised by a first call
    [useState(undefined)]; the next call at the same pair, [useState(5)],
    stores 5 in it. *)
Lemma undefined_slot_is_reinitialised :
  let first := snd (useState VUndefined (with_cursor (Some Demo.Counter) 0 Demo.blank)) in
  ~ later_call_keeps_slot (with_cursor (Some Demo.Counter) 0 first) (VNum 5).
Proof. cbv zeta. unfold later_call_keeps_slot. vm_compute. discriminate. Qed.

(** C3 (amended). A call of [useState] at the pair under the cursor returns
    the hook of that pair.  If the slot reads [undefined] (as it does at the
    first call for the pair, the arrays being grown on demand) the slot is
    set to the argument; if it holds any other value, the slot keeps it and
    the argument is ignored altogether. *)
Theorem useState_initializes_once (initialValue : value) (st : State) :
  let h := (currentComponent st, stateIndex st) in
  fst (useState initialValue st) = h /\
  (getter h st = VUndefined ->
   getter h (snd (useState initialValue st)) = initialValue) /\
  (getter h st <> VUndefined ->
   getter h (snd (useState initialValue st)) = getter h st /\
   forall other, useState other st = useState initialValue st).
Proof.
  cbn zeta. destruct (useState_spec initialValue st) as (Hh & Hslot & _).
  split; [exact Hh|]. split.
  - intros Hu. rewrite Hslot, Hu. reflexivity.
  - intros Hd.
    assert (E : strict_eq (getter (currentComponent st, stateIndex st) st) VUndefined = false).
    { destruct (strict_eq _ VUndefined) eqn:E; [|reflexivity].
      apply strict_eq_undefined in E. contradiction. }
    split.
    + rewrite Hslot, E. reflexivity.
    + intros other. by apply useState_defined_ignores.
Qed.

Lemma useState_initializes_once_witness :
  let fresh_pair := with_cursor (Some Demo.Counter) 0 Demo.blank in
  let again := with_cursor (Some Demo.Counter) 0 (snd (useState (VNum 3) fresh_pair)) in
  getter (Some Demo.Counter, 0) (snd (useState (VNum 3) fresh_pair)) = VNum 3 /\
  getter (Some Demo.Counter, 0) (snd (useState (VNum 8) again)) = VNum 3.
Proof.
  cbv zeta. split.
  - apply (useState_initializes_once (VNum 3) (with_cursor (Some Demo.Counter) 0 Demo.blank)).
    reflexivity.
  - apply (useState_initializes_once (VNum 8)
             (with_cursor (Some Demo.Counter) 0
                (snd (useState (VNum 3) (with_cursor (Some Demo.Counter) 0 Demo.blank))))).
    vm_compute. discriminate.
Defined.

(** C2. Calling the setter of a hook with a value that is [===] to the
    value in the slot returns at once: the state after the call is the
    state before it, so the slot, the table, the document (no node is
    created, no child is moved), the last rendered node and the list of
    post-mount callbacks invoked are all as they were. *)
Theorem setter_same_value_noop (body : ref -> list (string * value) -> prog)
    (fn_text : ref -> string) (fuel : nat) (h : hook) (newValue : value) (st : State) :
  strict_eq (getter h st) newValue = true ->
  setter body fn_text fuel h newValue st = Normal tt st.
Proof.
  intros Hsame. unfold setter, setter_with. destruct h as [component index].
  unfold getter in Hsame. cbn [fst snd] in Hsame. rewrite Hsame. reflexivity.
Qed.


(** C9, as worded, fails: in the state of a freshly loaded module the call
    returns a hook and stores the value under the key [null]. *)
Lemma useState_outside_render_returns :
  ~ fails_outside_render Demo.blank (VNum 0).
Proof.
  unfold fails_outside_render. intros H.
  destruct (H eq_refl) as (e & st' & Hcall). vm_compute in Hcall. discriminate.
Qed.

(** C9 (amended). With no component under the cursor, [useState] does not
    fail: it returns the hook of the pair ([null], current index), keeps
    its slots in the table under the key [null] (initialising the slot if
    it reads [undefined]), and advances the index. *)
Theorem useState_outside_render (initialValue : value) (st : State) :
  currentComponent st = None ->
  exists st',
    useState_call initialValue st = Normal (None, stateIndex st) st' /\
    getter (None, stateIndex st) st'
      = (if strict_eq (getter (None, stateIndex st) st) VUndefined
         then initialValue else getter (None, stateIndex st) st) /\
    is_Some (componentStates st' !! None) /\
    currentComponent st' = None /\
    stateIndex st' = S (stateIndex st).
Proof.
  intros Hnone.
  destruct (useState_spec initialValue st) as (Hh & Hslot & _ & Hc & Hi).
  rewrite Hnone in *.
  exists (snd (useState initialValue st)).
  unfold useState_call. destruct (useState initialValue st) as [h st'] eqn:E.
  cbn [fst snd] in *. subst h. repeat split; auto.
  unfold useState in E. rewrite Hnone in E.
  destruct (componentStates st !! None) eqn:Ek.
  - injection E as <-.
    destruct (strict_eq _ VUndefined); cbn;
      [rewrite lookup_insert_eq | rewrite Ek]; eauto.
  - injection E as <-.
    destruct (strict_eq _ VUndefined); cbn;
      [rewrite lookup_insert_eq | rewrite lookup_insert_eq]; eauto.
Qed.

Lemma useState_outside_render_witness :
  exists st',
    useState_call (VNum 0) Demo.blank = Normal (None, 0) st' /\
    getter (None, 0) st' = VNum 0.
Proof.
  destruct (useState_outside_render (VNum 0) Demo.blank eq_refl)
    as (st' & Hcall & Hslot & _).
  exists st'. split; [exact Hcall | exact Hslot].
Defined.

(* ================================================================== *)
(** * Properties of the property binding *)
(* ================================================================== *)

Lemma member_assign_eq {A : Type} (k : string) (v : A) (o : list (string * A)) :
  member k (assign k v o) = Some v.
Proof.
  induction o as [|[k' v'] o IH]; cbn.
  - by rewrite String.eqb_refl.
  - destruct (String.eqb k' k) eqn:E; cbn.
    + by rewrite String.eqb_refl.
    + by rewrite E.
Qed.

Lemma member_assign_ne {A : Type} (k k' : string) (v : A) (o : list (string * A)) :
  k <> k' -> member k (assign k' v o) = member k o.
Proof.
  intros Hne. induction o as [|[k0 v0] o IH]; cbn.
  - destruct (String.eqb k' k) eqn:E; [|reflexivity].
    apply String.eqb_eq in E. congruence.
  - destruct (String.eqb k0 k') eqn:E; cbn.
    + apply String.eqb_eq in E. subst k0.
      destruct (String.eqb k' k) eqn:E'; [|reflexivity].
      apply String.eqb_eq in E'. congruence.
    + by rewrite IH.
Qed.



Section Binding.

Variable fn_text : ref -> string.

Lemma style_fold (entries : list (string * value)) (element : ElemData) :
  let element' :=
    fold_left (fun el entry => setStyleProperty (fst entry) (snd entry) el)
              entries element in
  style element'
    = fold_left (fun o entry => assign (fst entry) (snd entry) o) entries (style element)
  /\ attributes element' = attributes element.
Proof.
  cbn zeta. revert element.
  induction entries as [|[k v] entries IH]; intros element; cbn; [split; reflexivity|].
  destruct (IH (setStyleProperty k v element)) as [Hs Ha]. by rewrite Hs, Ha.
Qed.

(** The binding of a key writes no attribute of another name. *)
Lemma bindProp_other_attribute (vtype key name : string) (val : value)
    (element element' : ElemData) :
  bindProp fn_text vtype element key val = inr element' ->
  name <> key ->
  member name (attributes element') = member name (attributes element).
Proof.
  unfold bindProp. intros Hb Hne.
  repeat match type of Hb with
         | (if ?c then _ else _) = _ => destruct c eqn:?
         | match ?v with _ => _ end = _ => destruct v eqn:?
         end;
    try discriminate; injection Hb as <-; try reflexivity;
    cbn [attributes setAttribute setClassName setProperty];
    try (apply member_assign_ne; assumption);
    try (unfold addEventListener;
         match goal with |- context [if ?c then _ else _] => destruct c end;
         reflexivity).
  all: try (match goal with
            | |- member _ (attributes (fold_left _ _ _)) = _ =>
                rewrite (proj2 (style_fold _ _)); reflexivity
            end).
  all: try (match goal with
            | H : String.eqb ?k ?s = true |- _ =>
                apply String.eqb_eq in H; subst k; apply member_assign_ne; assumption
            end).
Qed.


(** The binding of a key assigns no property of another name. *)
Lemma bindProp_other_property (vtype key name : string) (val : value)
    (element element' : ElemData) :
  bindProp fn_text vtype element key val = inr element' ->
  name <> key ->
  member name (properties element') = member name (properties element).
Proof.
  unfold bindProp. intros Hb Hne.
  repeat match type of Hb with
         | (if ?c then _ else _) = _ => destruct c eqn:?
         | match ?v with _ => _ end = _ => destruct v eqn:?
         end;
    try discriminate; injection Hb as <-; try reflexivity;
    cbn [properties setAttribute setClassName setProperty];
    try (apply member_assign_ne; assumption);
    try (unfold addEventListener;
         match goal with |- context [if ?c then _ else _] => destruct c end;
         reflexivity).
  all: match goal with
       | |- member _ (properties (fold_left _ ?es ?el)) = _ =>
           clear; revert el; induction es as [|[k v] es IH]; intros el; cbn;
           [reflexivity | rewrite IH; reflexivity]
       end.
Qed.

Lemma bindProps_app (vtype : string) (element : ElemData) (l1 l2 : list (string * value)) :
  bindProps fn_text vtype element (l1 ++ l2)
  = match bindProps fn_text vtype element l1 with
    | inr element' => bindProps fn_text vtype element' l2
    | inl e => inl e
    end.
Proof.
  revert element. induction l1 as [|[k v] l1 IH]; intros element; cbn; [reflexivity|].
  destruct (bindProp fn_text vtype element k v); [reflexivity | apply IH].
Qed.

Lemma bindProps_other_attribute (vtype name : string) (entries : list (string * value))
    (element element' : ElemData) :
  bindProps fn_text vtype element entries = inr element' ->
  ~ In name (map fst entries) ->
  member name (attributes element') = member name (attributes element).
Proof.
  revert element. induction entries as [|[k v] entries IH]; intros element Hb Hnot; cbn in *.
  - by injection Hb as <-.
  - destruct (bindProp fn_text vtype element k v) as [|e1] eqn:E; [discriminate|].
    rewrite (IH e1 Hb) by tauto.
    eapply bindProp_other_attribute; [exact E | intros ->; tauto].
Qed.


Lemma bindProps_other_property (vtype name : string) (entries : list (string * value))
    (element element' : ElemData) :
  bindProps fn_text vtype element entries = inr element' ->
  ~ In name (map fst entries) ->
  member name (properties element') = member name (properties element).
Proof.
  revert element. induction entries as [|[k v] entries IH]; intros element Hb Hnot; cbn in *.
  - by injection Hb as <-.
  - destruct (bindProp fn_text vtype element k v) as [|e1] eqn:E; [discriminate|].
    rewrite (IH e1 Hb) by tauto.
    eapply bindProp_other_property; [exact E | intros ->; tauto].
Qed.

(** In a record (no key twice) the entry of a key is bound once, between
    the entries before it and the entries after it, none of which has
    the key. *)
Lemma bindProps_entry (vtype key : string) (val : value) (entries : list (string * value))
    (element element' : ElemData) :
  List.NoDup (map fst entries) ->
  In (key, val) entries ->
  bindProps fn_text vtype element entries = inr element' ->
  exists before after e0 e1,
    entries = before ++ (key, val) :: after /\
    ~ In key (map fst before) /\ ~ In key (map fst after) /\
    bindProps fn_text vtype element before = inr e0 /\
    bindProp fn_text vtype e0 key val = inr e1 /\
    bindProps fn_text vtype e1 after = inr element'.
Proof.
  intros Hnd Hin Hb.
  destruct (in_split _ _ Hin) as (before & after & ->).
  rewrite map_app in Hnd. cbn in Hnd.
  assert (Hb' := Hb). rewrite bindProps_app in Hb'.
  destruct (bindProps fn_text vtype element before) as [|e0] eqn:E0; [discriminate|].
  cbn in Hb'.
  destruct (bindProp fn_text vtype e0 key val) as [|e1] eqn:E1; [discriminate|].
  exists before, after, e0, e1.
  apply NoDup_remove in Hnd. destruct Hnd as [_ Hnot].
  rewrite in_app_iff in Hnot. repeat split; auto.
Qed.

(** The last branch of the binding, for a plain key. *)
Lemma bindProp_plain (vtype key : string) (val : value) (element : ElemData) :
  plain_key key = true ->
  bindProp fn_text vtype element key val
  = inr (if negb (strict_eq val VNull) && negb (strict_eq val VUndefined)
            && negb (strict_eq val (VBool false))
         then if String.eqb (typeof val) "boolean"
              then if truthy val then setAttribute key "" element else element
              else setAttribute key (toString fn_text val) element
         else element).
Proof.
  unfold plain_key, bindProp. intros Hp.
  repeat (apply andb_prop in Hp; destruct Hp as [Hp ?]).
  repeat match goal with
         | H : negb ?c = true |- _ => apply negb_true_iff in H; rewrite H
         end.
  repeat match goal with |- context [if ?c then _ else _] => destruct c end;
    reflexivity.
Qed.

(** The binding of an entry raises in one case only: [style: null], where
    [Object.entries(null)] throws. *)
Lemma bindProp_raises (vtype key : string) (val : value) (element : ElemData) (e : exn) :
  bindProp fn_text vtype element key val = inl e ->
  key = "style" /\ val = VNull /\ e = TypeError.
Proof.
  unfold bindProp. intros Hb.
  destruct (String.eqb key "style") eqn:Es.
  - apply String.eqb_eq in Es. subst key. cbn in Hb.
    destruct val; cbn in Hb; try discriminate. injection Hb as <-. auto.
  - repeat match type of Hb with
           | (if ?c then _ else _) = _ => destruct c eqn:?
           | match ?v with _ => _ end = _ => destruct v eqn:?
           end; discriminate.
Qed.

(** So the props of a descriptor without such an entry are always bound. *)
Lemma bindProps_returns (vtype : string) (entries : list (string * value))
    (element : ElemData) :
  ~ In ("style", VNull) entries ->
  exists element', bindProps fn_text vtype element entries = inr element'.
Proof.
  revert element. induction entries as [|[k v] entries IH]; intros element Hnot; cbn.
  - eauto.
  - destruct (bindProp fn_text vtype element k v) as [e|e1] eqn:E.
    + apply bindProp_raises in E. destruct E as (-> & -> & _).
      exfalso. apply Hnot. left. reflexivity.
    + apply IH. intros Hin. apply Hnot. right. exact Hin.
Qed.

End Binding.

(* ================================================================== *)
(** * Properties of the style object *)
(* ================================================================== *)












(* ================================================================== *)
(** * Properties of the renderer *)
(* ================================================================== *)

Section Rendering.

Variable body : ref -> list (string * value) -> prog.
Variable fn_text : ref -> string.

(** A host element comes out of [renderToDOM] with the data that the
    binding of the props has produced on a new element of its tag. *)
Lemma render_element_inv (fuel : nat) (r : ref) (tag : string)
    (ps : list (string * value)) (cs : list value) (st st' : State) (n : node) :
  String.eqb tag "fragment" = false ->
  renderToDOM body fn_text fuel (VNode r (mkVNode (Tag tag) ps cs)) st = Normal n st' ->
  exists element kids,
    n = Element (nextNode st) element kids /\
    bindProps fn_text tag (newElement tag) ps = inr element.
Proof.
  intros Hfrag Hr. destruct fuel as [|fuel]; [discriminate|].
  cbn [renderToDOM type props children] in Hr. rewrite Hfrag in Hr.
  unfold bind, fresh in Hr.
  destruct (bindProps fn_text tag (newElement tag) ps) as [|element]; [discriminate|].
  destruct (appendChildren _ cs [] _) as [kids st1| |]; try discriminate.
  exists element, kids. split; [|reflexivity].
  destruct (member "_onMounted" ps) as [[]|]; congruence.
Qed.

(** A host element without children is rendered in one step, whenever its
    props are bound. *)
Lemma render_childless_returns (fuel : nat) (r : ref) (tag : string)
    (ps : list (string * value)) (st : State) :
  String.eqb tag "fragment" = false ->
  ~ In ("style", VNull) ps ->
  exists element st',
    bindProps fn_text tag (newElement tag) ps = inr element /\
    renderToDOM body fn_text (S fuel) (VNode r (mkVNode (Tag tag) ps [])) st
    = Normal (Element (nextNode st) element []) st'.
Proof.
  intros Hfrag Hnot.
  destruct (bindProps_returns fn_text tag ps (newElement tag) Hnot) as [element Hb].
  cbn [renderToDOM type props children]. rewrite Hfrag. unfold bind, fresh.
  rewrite Hb. cbn [appendChildren].
  exists element. destruct (member "_onMounted" ps) as [[]|]; eauto.
Qed.

(** ** Steps *)

Lemma setter_with_settled (render render' : value -> State -> result node) :
  (forall v st, settled (render v st) (render' v st)) ->
  forall h v st, settled (setter_with render h v st) (setter_with render' h v st).
Proof.
  intros Hrender [component index] v st. unfold setter_with.
  destruct (strict_eq _ v); [reflexivity|].
  destruct (rootContainer _); [|reflexivity].
  destruct (truthy _); [|reflexivity].
  match goal with |- context [render ?x ?s] => specialize (Hrender x s) end.
  destruct (render _ _) as [newDom st1| |]; cbn in Hrender |- *;
    try rewrite Hrender; reflexivity.
Qed.

Lemma run_settled (render render' : value -> State -> result node) :
  (forall v st, settled (render v st) (render' v st)) ->
  forall p st, settled (run render p st) (run render' p st).
Proof.
  intros Hrender.
  induction p as [d|e|init k IH|h k IH|h v k IH]; intros st; cbn [run].
  - reflexivity.
  - reflexivity.
  - destruct (useState init st) as [hk st1]. apply IH.
  - apply IH.
  - pose proof (setter_with_settled _ _ Hrender h v st) as Hs.
    destruct (setter_with render h v st) as [u st1| |]; cbn in Hs |- *;
      try (rewrite Hs; cbn); try apply IH; reflexivity.
Qed.

Lemma appendChildren_settled (render render' : value -> State -> result node) :
  (forall v st, settled (render v st) (render' v st)) ->
  forall cs kids st,
    settled (appendChildren render cs kids st) (appendChildren render' cs kids st).
Proof.
  intros Hrender. induction cs as [|c cs IH]; intros kids st; cbn [appendChildren].
  - reflexivity.
  - specialize (Hrender c st).
    destruct (render c st) as [n st1| |]; cbn in Hrender |- *;
      try (rewrite Hrender; cbn); try apply IH; reflexivity.
Qed.

(** A render that comes to an end with some number of steps allowed comes
    to the same end with one more. *)
Lemma renderToDOM_settled (fuel : nat) :
  forall v st,
    settled (renderToDOM body fn_text fuel v st) (renderToDOM body fn_text (S fuel) v st).
Proof.
  induction fuel as [|fuel IH]; intros v st; [exact I|].
  remember (S fuel) as fuel1 eqn:Hfuel.
  assert (IH1 : forall v st, settled (renderToDOM body fn_text fuel v st)
                                     (renderToDOM body fn_text fuel1 v st))
    by (subst fuel1; exact IH).
  clear IH. rewrite Hfuel at 1. clear Hfuel.
  cbn [renderToDOM]. unfold bind, fresh.
  destruct v as [| | | | | | | | |r [k ps cs]]; try reflexivity.
  cbn [type props children]. destruct k as [tag|f].
  - pose proof (appendChildren_settled _ _ IH1 cs []
                  (with_nextNode (S (nextNode st)) st)) as Ha.
    destruct (String.eqb tag "fragment").
    + destruct (appendChildren (renderToDOM body fn_text fuel) cs [] _)
        as [kids st1| |]; cbn in Ha |- *; try rewrite Ha; reflexivity.
    + destruct (bindProps fn_text tag (newElement tag) ps); [reflexivity|].
      destruct (appendChildren (renderToDOM body fn_text fuel) cs [] _)
        as [kids st1| |]; cbn in Ha |- *; try rewrite Ha; try reflexivity.
      destruct (member "_onMounted" ps) as [[]|]; reflexivity.
  - pose proof (run_settled _ _ IH1 (body f ps) (with_cursor (Some f) 0 st)) as Hrun.
    destruct (run (renderToDOM body fn_text fuel) (body f ps) _)
      as [res st1| |]; cbn in Hrun |- *; try rewrite Hrun; try reflexivity.
    apply IH1.
Qed.

Lemma renderToDOM_more_fuel (fuel extra : nat) (v : value) (st st' : State) (n : node) :
  renderToDOM body fn_text fuel v st = Normal n st' ->
  renderToDOM body fn_text (extra + fuel) v st = Normal n st'.
Proof.
  intros Hr. induction extra as [|extra IH]; [exact Hr|].
  pose proof (renderToDOM_settled (extra + fuel) v st) as Hs.
  rewrite IH in Hs. exact Hs.
Qed.

(** ** The cursor *)













(** After [Thrower] has raised and left itself under the cursor, the
    counter renders as it does from a clear cursor. *)
Example render_after_raise :
  exists left_by_raise,
    renderToDOM Demo.body Demo.fn_text 5 Demo.thrower_app Demo.blank
      = Thrown (Raised (VStr "boom")) left_by_raise /\
    currentComponent left_by_raise = Some Demo.Thrower /\
    forget_outcome_cursor
      (renderToDOM Demo.body Demo.fn_text 5 Demo.counter_app left_by_raise)
    = forget_outcome_cursor
        (renderToDOM Demo.body Demo.fn_text 5 Demo.counter_app Demo.blank).
Proof.
  eexists. split; [vm_compute; reflexivity|]. split; vm_compute; reflexivity.
Qed.

(** A component that sets its state and then raises, as [Rash] does at
    its first call, leaves no component under the cursor: the re-render
    that its setter has run has cleared it. *)
Example raise_after_set_leaves_none :
  exists left_by_raise,
    mount Rash.rash Demo.fn_text 5 Rash.rash_app 0 Demo.blank
      = Thrown (Raised (VStr "late")) left_by_raise /\
    currentComponent left_by_raise = None.
Proof. eexists. split; vm_compute; reflexivity. Qed.

(** ** Attributes *)

(** C7, as worded, fails: the property [checked: true] puts no attribute
    on the element. *)
Lemma checked_true_sets_no_attribute :
  ~ boolean_attribute_law Demo.body Demo.fn_text "input" "checked".
Proof.
  unfold boolean_attribute_law. intros Hlaw.
  specialize (Hlaw 2 26%positive Demo.blank 0
                (setProperty "checked" (VBool true) (newElement "input")) []
                (with_nextNode 1 Demo.blank) eq_refl).
  discriminate.
Qed.

(** C7 (amended). On the element rendered from a host-tag descriptor
    whose props are a record: an entry with a plain key (not [key], [ref]
    or [_onMounted], not starting with [on], not [className], [style],
    [value], [checked] or [disabled]) and the value [true] gives the
    attribute of that name, with the empty value; with [false], [null] or
    [undefined] the attribute is absent; any other value is set in its
    string form.  An entry with the key [checked] or [disabled] assigns
    its value to the property of that name, and the attribute of that
    name is not written. *)
Theorem plain_boolean_attribute (fuel : nat) (r : ref) (tag : string)
    (ps : list (string * value)) (cs : list value) (st st' : State)
    (id : nat) (element : ElemData) (kids : list node) (key : string) (val : value) :
  String.eqb tag "fragment" = false ->
  List.NoDup (map fst ps) ->
  In (key, val) ps ->
  renderToDOM body fn_text fuel (VNode r (mkVNode (Tag tag) ps cs)) st
    = Normal (Element id element kids) st' ->
  (plain_key key = true ->
   member key (attributes element)
   = match val with
     | VBool true => Some ""
     | VBool false | VNull | VUndefined => None
     | _ => Some (toString fn_text val)
     end) /\
  (key = "checked" \/ key = "disabled" ->
   member key (properties element) = Some val /\
   member key (attributes element) = None).
Proof.
  intros Hfrag Hnd Hin Hr.
  destruct (render_element_inv _ _ _ _ _ _ _ _ Hfrag Hr) as (el & kids' & Heq & Hb).
  injection Heq as _ <- _.
  destruct (bindProps_entry fn_text _ _ _ _ _ _ Hnd Hin Hb)
    as (before & after & e0 & e1 & _ & Hnb & Hna & Hb0 & Hb1 & Hb2).
  rewrite (bindProps_other_attribute fn_text _ _ _ _ _ Hb2 Hna).
  rewrite (bindProps_other_property fn_text _ _ _ _ _ Hb2 Hna).
  pose proof (bindProps_other_attribute fn_text _ _ _ _ _ Hb0 Hnb) as H0.
  cbn in H0. split.
  - intros Hplain.
    rewrite (bindProp_plain fn_text _ _ _ _ Hplain) in Hb1. injection Hb1 as <-.
    destruct val as [| |[|]| | | | | | |]; cbn;
      try exact H0; apply member_assign_eq.
  - intros [-> | ->]; cbn in Hb1; injection Hb1 as <-; cbn;
      (split; [apply member_assign_eq | exact H0]).
Qed.

(** ** Styles *)


(** The style object takes [backgroundColor] and [background-color] for
    one property, so that the later of the two entries decides; a name
    that is no property of the host leaves the block alone; a shorthand
    that comes later replaces the longhand that was set. *)
Example aliased_names_one_property :
  exists element,
    renderToDOM Demo.body Demo.fn_text 2 Browser.aliased_div Demo.blank
      = Normal (Element 0 element []) (with_nextNode 1 Demo.blank) /\
    declared Demo.fn_text Browser.host (style element) []
      = Some [("background-color", "blue"); ("font-size", "16px");
              ("row-gap", "10px"); ("column-gap", "10px")].
Proof. eexists. split; [reflexivity | vm_compute; reflexivity]. Qed.

(** ** The document *)

Lemma same_document_refl (st : State) : same_document st st.
Proof. repeat split. Qed.

Lemma same_document_trans (st1 st2 st3 : State) :
  same_document st1 st2 -> same_document st2 st3 -> same_document st1 st3.
Proof.
  unfold same_document. intros (A1 & B1 & C1 & D1) (A2 & B2 & C2 & D2).
  repeat split; congruence.
Qed.

Lemma useState_same_document (initialValue : value) (st : State) :
  same_document st (snd (useState initialValue st)).
Proof.
  unfold useState.
  destruct (componentStates st !! currentComponent st);
    match goal with |- context [if ?c then _ else _] => destruct c end;
    repeat split.
Qed.

Lemma run_same_document (render : value -> State -> result node) (p : prog) :
  set_free p ->
  forall st res st',
    run render p st = Normal res st' -> same_document st st'.
Proof.
  induction p as [d|e|init k IH|h k IH|h v k IH]; intros Hfree st res st' Hrun;
    cbn [run set_free] in Hrun, Hfree.
  - injection Hrun as _ <-. apply same_document_refl.
  - discriminate.
  - pose proof (useState_same_document init st) as Hu.
    destruct (useState init st) as [hk st1]. cbn in Hu.
    eapply same_document_trans; [exact Hu|]. eapply IH; [apply Hfree | exact Hrun].
  - eapply IH; [apply Hfree | exact Hrun].
  - contradiction.
Qed.

Lemma appendChildren_same_document (render : value -> State -> result node) :
  (forall v st n st', render v st = Normal n st' -> same_document st st') ->
  forall cs kids st kids' st',
    appendChildren render cs kids st = Normal kids' st' -> same_document st st'.
Proof.
  intros Hrender. induction cs as [|c cs IH]; intros kids st kids' st' Ha; cbn in Ha.
  - injection Ha as _ <-. apply same_document_refl.
  - destruct (render c st) as [n st1| |] eqn:E; try discriminate.
    eapply same_document_trans; [eapply Hrender; exact E | eapply IH; exact Ha].
Qed.

(** When no body calls a setter, rendering creates nodes and touches
    neither the containers nor the root binding. *)
Lemma render_same_document (fuel : nat) :
  (forall f ps, set_free (body f ps)) ->
  forall v st n st',
    renderToDOM body fn_text fuel v st = Normal n st' -> same_document st st'.
Proof.
  intros Hfree. induction fuel as [|fuel IH]; intros v st n st' Hr; [discriminate|].
  cbn [renderToDOM] in Hr. unfold bind, fresh in Hr.
  destruct v as [| | | | | | | | |r [k ps cs]]; try discriminate;
    try (injection Hr as _ <-; repeat split).
  cbn [type props children] in Hr. destruct k as [tag|f].
  - destruct (String.eqb tag "fragment").
    + destruct (appendChildren _ cs [] _) as [kids st1| |] eqn:Ea; try discriminate.
      injection Hr as _ <-.
      apply (appendChildren_same_document _ IH) in Ea. exact Ea.
    + destruct (bindProps fn_text tag (newElement tag) ps); [discriminate|].
      destruct (appendChildren _ cs [] _) as [kids st1| |] eqn:Ea; try discriminate.
      apply (appendChildren_same_document _ IH) in Ea.
      destruct (member "_onMounted" ps) as [[]|]; injection Hr as _ <-; exact Ea.
  - destruct (run _ _ _) as [result st1| |] eqn:Erun; try discriminate.
    apply (run_same_document _ _ (Hfree f ps)) in Erun.
    apply IH in Hr.
    eapply same_document_trans; [exact Erun|]. exact Hr.
Qed.



(** For such a program [mount] leaves [renderedNode] as it finds it: the
    node it appends is not recorded. *)
Lemma mount_leaves_renderedNode (fuel : nat) (vnode : value) (container : nat)
    (st st' : State) :
  (forall f ps, set_free (body f ps)) ->
  mount body fn_text fuel vnode container st = Normal tt st' ->
  renderedNode st' = renderedNode st.
Proof.
  intros Hfree Hm. unfold mount in Hm.
  destruct (renderToDOM _ _ _ _ _) as [n st1| |] eqn:Hr; try discriminate.
  injection Hm as <-. apply (render_same_document _ Hfree) in Hr.
  destruct Hr as (_ & Hn & _). exact Hn.
Qed.

End Rendering.

(* ================================================================== *)
(** * Properties of the controller and of shared state *)
(* ================================================================== *)

Lemma getter_with_cursor (h : hook) (c : option ref) (i : nat) (st : State) :
  getter h (with_cursor c i st) = getter h st.
Proof. reflexivity. Qed.

(** The runtime on two instances of [Counter] under one [div]: after the
    setter of slot 0 is called with 9, both instances show 9. *)
Example pair_instances_show_the_update :
  exists mounted updated,
    mount Demo.body Demo.fn_text 6 Demo.pair_app 0 Demo.blank = Normal tt mounted /\
    children_of 0 mounted
      = [Element 0 (newElement "div")
           [Element 1 (newElement "h2") [Text 2 "Count: 5"];
            Element 3 (newElement "h2") [Text 4 "Count: 5"]]] /\
    setter Demo.body Demo.fn_text 6 (Some Demo.Counter, 0) (VNum 9) mounted
      = Normal tt updated /\
    children_of 0 updated
      = [Element 5 (newElement "div")
           [Element 6 (newElement "h2") [Text 7 "Count: 9"];
            Element 8 (newElement "h2") [Text 9 "Count: 9"]]].
Proof.
  eexists _, _. split; [vm_compute; reflexivity|].
  split; [vm_compute; reflexivity|].
  split; [vm_compute; reflexivity|].
  vm_compute. reflexivity.
Qed.

(** C1 on a concrete page.  The container holds a text node; [mount]
    appends the rendered [h2] after it and leaves [renderedNode] at
    [null].  The first call of the setter therefore finds no last rendered
    node: it empties the container (the text node goes as well) and
    appends the new [h2], instead of putting it where the old [h2] stood. *)
Theorem first_rerender_after_mount_clears :
  exists mounted updated,
    mount Demo.body Demo.fn_text 5 Demo.counter_app 0 Demo.page = Normal tt mounted /\
    children_of 0 mounted
      = [Text 0 "old"; Element 1 (newElement "h2") [Text 2 "Count: 0"]] /\
    renderedNode mounted = None /\
    setter Demo.body Demo.fn_text 5 (Some Demo.Counter, 0) (VNum 1) mounted
      = Normal tt updated /\
    children_of 0 updated
      = [Element 3 (newElement "h2") [Text 4 "Count: 1"]] /\
    renderedNode updated = Some 3.
Proof.
  eexists _, _. split; [vm_compute; reflexivity|].
  split; [vm_compute; reflexivity|].
  split; [vm_compute; reflexivity|].
  split; [vm_compute; reflexivity|].
  split; vm_compute; reflexivity.
Qed.

(** From the second call on the setter does replace in place: the node it
    recorded is found under its parent, and the other children stay. *)
Example later_rerender_replaces_in_place :
  exists mounted first again second,
    mount Demo.body Demo.fn_text 5 Demo.counter_app 0 Demo.blank = Normal tt mounted /\
    setter Demo.body Demo.fn_text 5 (Some Demo.Counter, 0) (VNum 1) mounted
      = Normal tt first /\
    mount Demo.body Demo.fn_text 5 Demo.hidden_input 0 first = Normal tt again /\
    setter Demo.body Demo.fn_text 5 (Some Demo.Counter, 0) (VNum 2) again
      = Normal tt second /\
    map node_id (children_of 0 again) = [2; 4] /\
    map node_id (children_of 0 second) = [5; 4].
Proof.
  eexists _, _, _, _. split; [vm_compute; reflexivity|].
  split; [vm_compute; reflexivity|].
  split; [vm_compute; reflexivity|].
  split; [vm_compute; reflexivity|].
  split; vm_compute; reflexivity.
Qed.


(* ================================================================== *)
(** * The scenarios of the specification *)
(* ================================================================== *)

(** Scenario A: [createElement("div", {className: "test"}, "Hello")]. *)
Example scenario_div :
  renderToDOM Demo.body Demo.fn_text 2
    (VNode 30 (createElement (Tag "div") (Some [("className", VStr "test")])
                             [VStr "Hello"])) Demo.blank
  = Normal (Element 0 (setClassName "test" (newElement "div")) [Text 1 "Hello"])
           (with_nextNode 2 Demo.blank).
Proof. reflexivity. Qed.

(** Scenario B: a counter, three state changes, the third render. *)
Example scenario_counter :
  exists s0 s1 s2 s3,
    mount Demo.body Demo.fn_text 5 Demo.counter_app 0 Demo.blank = Normal tt s0 /\
    setter Demo.body Demo.fn_text 5 (Some Demo.Counter, 0) (VNum 1) s0 = Normal tt s1 /\
    setter Demo.body Demo.fn_text 5 (Some Demo.Counter, 0) (VNum 2) s1 = Normal tt s2 /\
    setter Demo.body Demo.fn_text 5 (Some Demo.Counter, 0) (VNum 3) s2 = Normal tt s3 /\
    children_of 0 s3 = [Element 6 (newElement "h2") [Text 7 "Count: 3"]].
Proof.
  eexists _, _, _, _. split; [vm_compute; reflexivity|].
  split; [vm_compute; reflexivity|].
  split; [vm_compute; reflexivity|].
  split; vm_compute; reflexivity.
Qed.

(** Scenario D: a fragment of three strings. *)
Example scenario_fragment :
  renderToDOM Demo.body Demo.fn_text 2
    (VNode 31 (createFragment None [VStr "A"; VStr "B"; VStr "C"])) Demo.blank
  = Normal (Fragment 0 [Text 1 "A"; Text 2 "B"; Text 3 "C"])
           (with_nextNode 4 Demo.blank).
Proof. reflexivity. Qed.

(** [rerender] empties the container and mounts anew. *)
Example rerender_replaces_content :
  exists st',
    rerender Demo.body Demo.fn_text 5 Demo.counter_app 0 Demo.page = Normal tt st' /\
    children_of 0 st' = [Element 1 (newElement "h2") [Text 2 "Count: 0"]] /\
    renderedNode st' = None.
Proof.
  eexists. split; [vm_compute; reflexivity|].
  split; vm_compute; reflexivity.
Qed.

(* ================================================================== *)
(** * The theorems at work on the small program *)
(* ================================================================== *)

(** The element that [hidden_input] renders to. *)
Lemma hidden_input_rendered :
  renderToDOM Demo.body Demo.fn_text 2 Demo.hidden_input Demo.blank
  = Normal (Element 0
              (setProperty "disabled" (VBool false)
                 (setAttribute "hidden" ""
                    (setAttribute "type" "text" (newElement "input")))) [])
           (with_nextNode 1 Demo.blank).
Proof. reflexivity. Qed.

Lemma hidden_input_record :
  List.NoDup (map fst [("type", VStr "text"); ("hidden", VBool true);
                       ("disabled", VBool false)]).
Proof. cbn. repeat constructor; cbn; intuition discriminate. Qed.

Lemma plain_boolean_attribute_witness :
  let element :=
    setProperty "disabled" (VBool false)
      (setAttribute "hidden" "" (setAttribute "type" "text" (newElement "input"))) in
  member "hidden" (attributes element) = Some "" /\
  member "disabled" (properties element) = Some (VBool false) /\
  member "disabled" (attributes element) = None.
Proof.
  cbv zeta.
  destruct (plain_boolean_attribute Demo.body Demo.fn_text 2 27 "input" _ []
              Demo.blank _ 0 _ [] "hidden" (VBool true)
              eq_refl hidden_input_record (or_intror (or_introl eq_refl))
              hidden_input_rendered) as [Hplain _].
  destruct (plain_boolean_attribute Demo.body Demo.fn_text 2 27 "input" _ []
              Demo.blank _ 0 _ [] "disabled" (VBool false)
              eq_refl hidden_input_record (or_intror (or_intror (or_introl eq_refl)))
              hidden_input_rendered) as [_ Hform].
  split; [exact (Hplain eq_refl) | exact (Hform (or_intror eq_refl))].
Defined.


Lemma setter_same_value_noop_witness :
  strict_eq (getter (Some Demo.Counter, 0)
               (snd (useState (VNum 0) (with_cursor (Some Demo.Counter) 0 Demo.blank))))
            (VNum 0) = true /\
  setter Demo.body Demo.fn_text 5 (Some Demo.Counter, 0) (VNum 0)
         (snd (useState (VNum 0) (with_cursor (Some Demo.Counter) 0 Demo.blank)))
  = Normal tt (snd (useState (VNum 0) (with_cursor (Some Demo.Counter) 0 Demo.blank))).
Proof.
  split; [reflexivity|].
  apply (setter_same_value_noop Demo.body Demo.fn_text 5 (Some Demo.Counter, 0) (VNum 0)).
  reflexivity.
Defined.






(* ================================================================== *)
(** * Further properties of the property binding *)
(* ================================================================== *)

Ltac bindProp_cases Hb :=
  unfold bindProp in Hb;
  repeat match type of Hb with
         | (if ?c then _ else _) = _ => destruct c eqn:?
         | match ?v with _ => _ end = _ => destruct v eqn:?
         end;
  try discriminate; injection Hb as <-.

Lemma style_fold_rest (entries : list (string * value)) (element : ElemData) :
  let element' :=
    fold_left (fun el entry => setStyleProperty (fst entry) (snd entry) el)
              entries element in
  className element' = className element /\
  listeners element' = listeners element /\
  properties element' = properties element.
Proof.
  cbn zeta. revert element.
  induction entries as [|[k v] entries IH]; intros element; cbn; [repeat split|].
  destruct (IH (setStyleProperty k v element)) as (Hc & Hl & Hp).
  by rewrite Hc, Hl, Hp.
Qed.

Lemma addEventListener_rest (eventName : string) (f : ref) (element : ElemData) :
  className (addEventListener eventName f element) = className element /\
  attributes (addEventListener eventName f element) = attributes element /\
  properties (addEventListener eventName f element) = properties element /\
  style (addEventListener eventName f element) = style element.
Proof.
  unfold addEventListener.
  match goal with |- context [existsb ?p ?l] => destruct (existsb p l) end; repeat split.
Qed.

Lemma addEventListener_registers (eventName : string) (f : ref) (element : ElemData) :
  In (eventName, f) (listeners (addEventListener eventName f element)).
Proof.
  unfold addEventListener.
  match goal with |- context [existsb ?p ?l] => destruct (existsb p l) eqn:E end.
  - apply existsb_exists in E. destruct E as ([name g] & Hin & Heq). cbn in Heq.
    apply andb_prop in Heq. destruct Heq as [Hn Hg].
    apply String.eqb_eq in Hn. apply Pos.eqb_eq in Hg. by subst.
  - cbn. apply in_or_app. right. left. reflexivity.
Qed.

Lemma addEventListener_keeps (eventName : string) (f : ref) (element : ElemData)
    (l : string * ref) :
  In l (listeners element) -> In l (listeners (addEventListener eventName f element)).
Proof.
  unfold addEventListener. intros Hin.
  match goal with |- context [existsb ?p ?l] => destruct (existsb p l) end; [exact Hin|].
  cbn. apply in_or_app. left. exact Hin.
Qed.

Section MoreBinding.

Variable fn_text : ref -> string.

(** The binding of a key other than [className] leaves the class name. *)
Lemma bindProp_other_className (vtype key : string) (val : value)
    (element element' : ElemData) :
  bindProp fn_text vtype element key val = inr element' ->
  key <> "className" ->
  className element' = className element.
Proof.
  intros Hb Hne.
  destruct (String.eqb key "className") eqn:Ec.
  { apply String.eqb_eq in Ec. contradiction. }
  unfold bindProp in Hb. rewrite Ec in Hb.
  repeat match type of Hb with
         | (if ?c then _ else _) = _ => destruct c eqn:?
         | match ?v with _ => _ end = _ => destruct v eqn:?
         end;
    try discriminate; injection Hb as <-; try reflexivity;
    try apply addEventListener_rest;
    try apply (style_fold_rest _ _).
Qed.

Lemma bindProps_other_className (vtype : string) (entries : list (string * value))
    (element element' : ElemData) :
  bindProps fn_text vtype element entries = inr element' ->
  ~ In "className" (map fst entries) ->
  className element' = className element.
Proof.
  revert element. induction entries as [|[k v] entries IH]; intros element Hb Hnot; cbn in *.
  - by injection Hb as <-.
  - destruct (bindProp fn_text vtype element k v) as [|e1] eqn:E; [discriminate|].
    rewrite (IH e1 Hb) by tauto.
    eapply bindProp_other_className; [exact E | intros ->; tauto].
Qed.

(** No binding removes a listener. *)
Lemma bindProp_keeps_listeners (vtype key : string) (val : value)
    (element element' : ElemData) (l : string * ref) :
  bindProp fn_text vtype element key val = inr element' ->
  In l (listeners element) -> In l (listeners element').
Proof.
  intros Hb Hin. unfold bindProp in Hb.
  repeat match type of Hb with
         | (if ?c then _ else _) = _ => destruct c eqn:?
         | match ?v with _ => _ end = _ => destruct v eqn:?
         end;
    try discriminate; injection Hb as <-; try exact Hin;
    try (apply addEventListener_keeps; exact Hin).
  all: rewrite (proj1 (proj2 (style_fold_rest _ _))); exact Hin.
Qed.

Lemma bindProps_keeps_listeners (vtype : string) (entries : list (string * value))
    (element element' : ElemData) (l : string * ref) :
  bindProps fn_text vtype element entries = inr element' ->
  In l (listeners element) -> In l (listeners element').
Proof.
  revert element. induction entries as [|[k v] entries IH]; intros element Hb Hin; cbn in *.
  - by injection Hb as <-.
  - destruct (bindProp fn_text vtype element k v) as [|e1] eqn:E; [discriminate|].
    eapply IH; [exact Hb|]. eapply bindProp_keeps_listeners; eauto.
Qed.

(** A key that starts with [on] is none of the keys tested before. *)
Lemma on_key_not_reserved (key : string) :
  String.prefix "on" key = true ->
  String.eqb key "key" || String.eqb key "ref" || String.eqb key "_onMounted" = false.
Proof.
  intros Hon. apply String.prefix_correct in Hon.
  destruct key as [|a [|b rest]]; cbn in Hon; try discriminate.
  injection Hon as -> ->. reflexivity.
Qed.

(** The event branch: the element gets at most a listener. *)
Lemma bindProp_event (vtype key : string) (val : value) (element : ElemData) :
  String.prefix "on" key = true ->
  bindProp fn_text vtype element key val
  = inr (match val with
         | VFunc f => addEventListener (toLowerCase (substring_from2 key)) f element
         | _ => element
         end).
Proof.
  intros Hon. unfold bindProp. rewrite (on_key_not_reserved key Hon), Hon.
  destruct val; reflexivity.
Qed.

End MoreBinding.

Section MoreRendering.

Variable body : ref -> list (string * value) -> prog.
Variable fn_text : ref -> string.

(** X1. On the element rendered from a host-tag descriptor whose props are
    a record, an entry whose key starts with [on] is an event binding and
    nothing else: the element gets no attribute and no property of that
    name, whatever the value; and when the value is a function, the element
    has it as a listener for the event named by the rest of the key, in
    lower case.  (So a key such as [only] never becomes an attribute.) *)
Theorem event_key_binding (fuel : nat) (r : ref) (tag : string)
    (ps : list (string * value)) (cs : list value) (st st' : State)
    (id : nat) (element : ElemData) (kids : list node) (key : string) (val : value) :
  String.eqb tag "fragment" = false ->
  List.NoDup (map fst ps) ->
  In (key, val) ps ->
  String.prefix "on" key = true ->
  renderToDOM body fn_text fuel (VNode r (mkVNode (Tag tag) ps cs)) st
    = Normal (Element id element kids) st' ->
  member key (attributes element) = None /\
  member key (properties element) = None /\
  (forall f, val = VFunc f ->
             In (toLowerCase (substring_from2 key), f) (listeners element)).
Proof.
  intros Hfrag Hnd Hin Hon Hr.
  destruct (render_element_inv _ _ _ _ _ _ _ _ _ _ Hfrag Hr) as (el & kids' & Heq & Hb).
  injection Heq as _ <- _.
  destruct (bindProps_entry fn_text _ _ _ _ _ _ Hnd Hin Hb)
    as (before & after & e0 & e1 & _ & Hnb & Hna & Hb0 & Hb1 & Hb2).
  rewrite (bindProps_other_attribute fn_text _ _ _ _ _ Hb2 Hna).
  rewrite (bindProps_other_property fn_text _ _ _ _ _ Hb2 Hna).
  pose proof (bindProps_other_attribute fn_text _ _ _ _ _ Hb0 Hnb) as Ha0.
  pose proof (bindProps_other_property fn_text _ _ _ _ _ Hb0 Hnb) as Hp0.
  cbn in Ha0, Hp0.
  rewrite (bindProp_event fn_text _ _ _ _ Hon) in Hb1. injection Hb1 as <-.
  split; [|split].
  - destruct val; try exact Ha0.
    by rewrite (proj1 (proj2 (addEventListener_rest _ _ _))).
  - destruct val; try exact Hp0.
    by rewrite (proj1 (proj2 (proj2 (addEventListener_rest _ _ _)))).
  - intros f ->. eapply bindProps_keeps_listeners; [exact Hb2|].
    apply addEventListener_registers.
Qed.

(** X2. On the element rendered from a host-tag descriptor whose props are
    a record with a [value] entry, the value is assigned to the property
    [value] as it is; on [input], [select] and [textarea] its string form
    is written as the attribute [value] too, whatever the value is (for
    [undefined] the attribute reads "undefined"); on any other tag no
    attribute [value] is written. *)
Theorem value_binding (fuel : nat) (r : ref) (tag : string)
    (ps : list (string * value)) (cs : list value) (st st' : State)
    (id : nat) (element : ElemData) (kids : list node) (val : value) :
  String.eqb tag "fragment" = false ->
  List.NoDup (map fst ps) ->
  In ("value", val) ps ->
  renderToDOM body fn_text fuel (VNode r (mkVNode (Tag tag) ps cs)) st
    = Normal (Element id element kids) st' ->
  member "value" (properties element) = Some val /\
  member "value" (attributes element)
  = (if mirrors_value tag then Some (toString fn_text val) else None).
Proof.
  intros Hfrag Hnd Hin Hr.
  destruct (render_element_inv _ _ _ _ _ _ _ _ _ _ Hfrag Hr) as (el & kids' & Heq & Hb).
  injection Heq as _ <- _.
  destruct (bindProps_entry fn_text _ _ _ _ _ _ Hnd Hin Hb)
    as (before & after & e0 & e1 & _ & Hnb & Hna & Hb0 & Hb1 & Hb2).
  rewrite (bindProps_other_attribute fn_text _ _ _ _ _ Hb2 Hna).
  rewrite (bindProps_other_property fn_text _ _ _ _ _ Hb2 Hna).
  pose proof (bindProps_other_attribute fn_text _ _ _ _ _ Hb0 Hnb) as Ha0.
  cbn in Ha0. unfold bindProp in Hb1. cbn in Hb1. fold (mirrors_value tag) in Hb1.
  destruct (mirrors_value tag); injection Hb1 as <-; cbn;
    (split; [apply member_assign_eq|]); [apply member_assign_eq | exact Ha0].
Qed.

(** X3. On the element rendered from a host-tag descriptor whose props are
    a record with a [className] entry, the class name is the string form
    of the value when the value is truthy, and is left empty when it is
    falsy ([""], [0], [NaN], [false], [null], [undefined]). *)
Theorem className_binding (fuel : nat) (r : ref) (tag : string)
    (ps : list (string * value)) (cs : list value) (st st' : State)
    (id : nat) (element : ElemData) (kids : list node) (val : value) :
  String.eqb tag "fragment" = false ->
  List.NoDup (map fst ps) ->
  In ("className", val) ps ->
  renderToDOM body fn_text fuel (VNode r (mkVNode (Tag tag) ps cs)) st
    = Normal (Element id element kids) st' ->
  className element = (if truthy val then toString fn_text val else "").
Proof.
  intros Hfrag Hnd Hin Hr.
  destruct (render_element_inv _ _ _ _ _ _ _ _ _ _ Hfrag Hr) as (el & kids' & Heq & Hb).
  injection Heq as _ <- _.
  destruct (bindProps_entry fn_text _ _ _ _ _ _ Hnd Hin Hb)
    as (before & after & e0 & e1 & _ & Hnb & Hna & Hb0 & Hb1 & Hb2).
  rewrite (bindProps_other_className fn_text _ _ _ _ Hb2 Hna).
  pose proof (bindProps_other_className fn_text _ _ _ _ Hb0 Hnb) as Hc0.
  cbn in Hc0. unfold bindProp in Hb1. cbn in Hb1.
  destruct (truthy val); injection Hb1 as <-; [reflexivity | exact Hc0].
Qed.

End MoreRendering.

Lemma odd_input_rendered :
  renderToDOM Demo.body Demo.fn_text 2 Sample.odd_input Demo.blank
  = Normal (Element 0 Sample.odd_input_element []) (with_nextNode 1 Demo.blank).
Proof. reflexivity. Qed.

Lemma odd_input_record : List.NoDup (map fst Sample.input_props).
Proof. cbn. repeat constructor; cbn; intuition discriminate. Qed.

Lemma event_key_binding_witness :
  member "only" (attributes Sample.odd_input_element) = None /\
  In ("click", 40%positive) (listeners Sample.odd_input_element).
Proof.
  destruct (event_key_binding Demo.body Demo.fn_text 2 41 "input" _ []
              Demo.blank _ 0 _ [] "only" (VStr "x")
              eq_refl odd_input_record
              (or_intror (or_intror (or_intror (or_introl eq_refl)))) eq_refl
              odd_input_rendered) as (Hattr & _ & _).
  destruct (event_key_binding Demo.body Demo.fn_text 2 41 "input" _ []
              Demo.blank _ 0 _ [] "onClick" (VFunc 40)
              eq_refl odd_input_record
              (or_intror (or_intror (or_introl eq_refl))) eq_refl
              odd_input_rendered) as (_ & _ & Hlisten).
  split; [exact Hattr | exact (Hlisten 40%positive eq_refl)].
Defined.

Lemma value_binding_witness :
  member "value" (properties Sample.odd_input_element) = Some VUndefined /\
  member "value" (attributes Sample.odd_input_element) = Some "undefined".
Proof.
  exact (value_binding Demo.body Demo.fn_text 2 41 "input" _ []
           Demo.blank _ 0 _ [] VUndefined
           eq_refl odd_input_record (or_intror (or_introl eq_refl))
           odd_input_rendered).
Defined.

Lemma className_binding_witness :
  className Sample.odd_input_element = "".
Proof.
  exact (className_binding Demo.body Demo.fn_text 2 41 "input" _ []
           Demo.blank _ 0 _ [] (VNum 0)
           eq_refl odd_input_record
           (or_intror (or_intror (or_intror (or_intror (or_introl eq_refl)))))
           odd_input_rendered).
Defined.

(* ================================================================== *)
(** * What a render leaves alone *)
(* ================================================================== *)

Lemma quiet_refl (st : State) : quiet st st.
Proof. repeat split. lia. Qed.

Lemma quiet_trans (st1 st2 st3 : State) :
  quiet st1 st2 -> quiet st2 st3 -> quiet st1 st3.
Proof.
  intros ((A1 & B1 & C1 & D1) & K1 & N1) ((A2 & B2 & C2 & D2) & K2 & N2).
  split; [repeat split; congruence|]. split; [|lia].
  intros h Hh. rewrite <- (K1 h Hh). apply K2. rewrite (K1 h Hh). exact Hh.
Qed.

Lemma useState_quiet (initialValue : value) (st : State) :
  quiet st (snd (useState initialValue st)).
Proof.
  split; [|split].
  - unfold useState.
    destruct (componentStates st !! currentComponent st);
      match goal with |- context [if ?c then _ else _] => destruct c end;
      repeat split.
  - intros h Hh. destruct (useState_spec initialValue st) as (_ & Hslot & Hother & _).
    destruct (decide (h = (currentComponent st, stateIndex st))) as [->|Hne].
    + rewrite Hslot.
      destruct (strict_eq _ VUndefined) eqn:E; [|reflexivity].
      apply strict_eq_undefined in E. contradiction.
    + by apply Hother.
  - unfold useState.
    destruct (componentStates st !! currentComponent st);
      match goal with |- context [if ?c then _ else _] => destruct c end;
      cbn; lia.
Qed.

Lemma quiet_with_cursor (c : option ref) (i : nat) (st : State) :
  quiet st (with_cursor c i st).
Proof. repeat split. cbn. lia. Qed.

Lemma quiet_with_nextNode (st : State) :
  quiet st (with_nextNode (S (nextNode st)) st).
Proof. repeat split. cbn. lia. Qed.

Lemma quiet_with_mountedCalls (l : list (ref * nat)) (st : State) :
  quiet st (with_mountedCalls l st).
Proof. repeat split. cbn. lia. Qed.

Section Quiet.

Variable body : ref -> list (string * value) -> prog.
Variable fn_text : ref -> string.

Lemma run_quiet (render : value -> State -> result node) (p : prog) :
  set_free p ->
  forall st st', ends_in (run render p st) st' -> quiet st st'.
Proof.
  induction p as [d|e|init k IH|h k IH|h v k IH]; intros Hfree st st' Hrun;
    cbn [run set_free] in Hrun, Hfree.
  - cbn in Hrun. subst. apply quiet_refl.
  - cbn in Hrun. subst. apply quiet_refl.
  - pose proof (useState_quiet init st) as Hu.
    destruct (useState init st) as [hk st1]. cbn in Hu.
    eapply quiet_trans; [exact Hu|]. eapply IH; [apply Hfree | exact Hrun].
  - eapply IH; [apply Hfree | exact Hrun].
  - contradiction.
Qed.

Lemma appendChildren_quiet (render : value -> State -> result node) :
  (forall v st st', ends_in (render v st) st' -> quiet st st') ->
  forall cs kids st st',
    ends_in (appendChildren render cs kids st) st' -> quiet st st'.
Proof.
  intros Hrender. induction cs as [|c cs IH]; intros kids st st' Ha; cbn in Ha.
  - subst. apply quiet_refl.
  - specialize (Hrender c st).
    destruct (render c st) as [n st1| ex st1|]; cbn in Ha.
    + eapply quiet_trans; [apply Hrender; reflexivity | eapply IH; exact Ha].
    + subst. apply Hrender. reflexivity.
    + contradiction.
Qed.

(** When no body calls a setter, a render, whether it returns or throws,
    is quiet. *)
Lemma render_quiet (fuel : nat) :
  (forall f ps, set_free (body f ps)) ->
  forall v st st',
    ends_in (renderToDOM body fn_text fuel v st) st' -> quiet st st'.
Proof.
  intros Hfree. induction fuel as [|fuel IH]; intros v st st' Hr; [contradiction|].
  cbn [renderToDOM] in Hr. unfold bind, fresh in Hr.
  pose proof (quiet_with_nextNode st) as Hfresh.
  destruct v as [| | | | | | | | |r [k ps cs]]; cbn in Hr; subst;
    try exact Hfresh; try apply quiet_refl.
  destruct k as [tag|f].
  - pose proof (appendChildren_quiet _ IH cs []
                  (with_nextNode (S (nextNode st)) st)) as Ha.
    destruct (String.eqb tag "fragment").
    + destruct (appendChildren _ cs [] _) as [kids st1| ex st1|]; cbn in Hr;
        try contradiction; subst;
        (eapply quiet_trans; [exact Hfresh | apply Ha; reflexivity]).
    + destruct (bindProps fn_text tag (newElement tag) ps); cbn in Hr;
        [subst; exact Hfresh|].
      destruct (appendChildren _ cs [] _) as [kids st1| ex st1|]; cbn in Hr;
        try contradiction.
      * assert (Hq : quiet st st1)
          by (eapply quiet_trans; [exact Hfresh | apply Ha; reflexivity]).
        destruct (member "_onMounted" ps) as [[]|]; cbn in Hr; subst; exact Hq.
      * subst. eapply quiet_trans; [exact Hfresh | apply Ha; reflexivity].
  - pose proof (run_quiet (renderToDOM body fn_text fuel) _ (Hfree f ps)
                  (with_cursor (Some f) 0 st)) as Hrun.
    destruct (run _ _ _) as [res st1| ex st1|]; cbn in Hr; try contradiction.
    + eapply quiet_trans; [apply quiet_with_cursor|].
      eapply quiet_trans; [apply Hrun; reflexivity|].
      eapply quiet_trans; [apply (quiet_with_cursor None (stateIndex st1))|].
      exact (IH res _ _ Hr).
    + subst. eapply quiet_trans; [apply quiet_with_cursor | apply Hrun; reflexivity].
Qed.

End Quiet.

(* ================================================================== *)
(** * Further properties of the setter and of the controller *)
(* ================================================================== *)

Lemma getter_after_attach (h : hook) (n : option nat) (d : gmap nat (list node))
    (st : State) :
  getter h (with_renderedNode n (with_containers d st)) = getter h st.
Proof. reflexivity. Qed.



Section MoreController.

Variable body : ref -> list (string * value) -> prog.
Variable fn_text : ref -> string.
Hypothesis body_set_free : forall f ps, set_free (body f ps).

(** What the setter does when the value is new, in terms of the render. *)
Lemma setter_changed (fuel : nat) (h : hook) (v : value) (st : State) :
  strict_eq (getter h st) v = false ->
  setter body fn_text fuel h v st
  = match rootContainer st with
    | Some c =>
        if truthy (rootVNode st) then
          match renderToDOM body fn_text fuel (rootVNode st) (rerender_start h v st) with
          | Normal newDom st1 =>
              Normal tt
                (with_renderedNode (Some (node_id newDom))
                   match renderedNode st1 with
                   | Some old =>
                       match parentNode old st1 with
                       | Some parent => replaceChild parent newDom old st1
                       | None =>
                           match rootContainer st1 with
                           | Some c => appendChild c newDom (clearChildren c st1)
                           | None => st1
                           end
                       end
                   | None =>
                       match rootContainer st1 with
                       | Some c => appendChild c newDom (clearChildren c st1)
                       | None => st1
                       end
                   end)
          | Thrown e st1 => Thrown e st1
          | OutOfFuel => OutOfFuel
          end
        else Normal tt (write_slot (fst h) (snd h) v st)
    | None => Normal tt (write_slot (fst h) (snd h) v st)
    end.
Proof.
  intros Hdiff. destruct h as [c i]. unfold setter, setter_with, getter in *.
  cbn [fst snd] in *. rewrite Hdiff. reflexivity.
Qed.






End MoreController.







(* ================================================================== *)
(** * Hooks in a row, and children that cannot be rendered *)
(* ================================================================== *)

Lemma useStates_cursor (initialValues : list value) (st : State) :
  currentComponent (snd (useStates initialValues st)) = currentComponent st /\
  stateIndex (snd (useStates initialValues st)) = stateIndex st + length initialValues.
Proof.
  revert st. induction initialValues as [|init rest IH]; intros st;
    cbn [useStates length fst snd].
  - split; [reflexivity | lia].
  - destruct (useState_spec init st) as (_ & _ & _ & Hc & Hi).
    destruct (useState init st) as [h st1]. cbn in Hc, Hi.
    destruct (IH st1) as [Hc' Hi'].
    destruct (useStates rest st1) as [hs st2]. cbn in *. split; [congruence | lia].
Qed.

(** A row of calls touches only the slots from the cursor on. *)
Lemma useStates_other_slots (initialValues : list value) (st : State) (h : hook) :
  (forall k, k < length initialValues ->
             h <> (currentComponent st, stateIndex st + k)) ->
  getter h (snd (useStates initialValues st)) = getter h st.
Proof.
  revert st. induction initialValues as [|init rest IH]; intros st Hne;
    cbn [useStates length fst snd] in *; [reflexivity|].
  destruct (useState_spec init st) as (_ & _ & Hother & Hc & Hi).
  destruct (useState init st) as [h1 st1]. cbn in Hother, Hc, Hi.
  specialize (IH st1).
  destruct (useStates rest st1) as [hs st2]. cbn in *.
  rewrite IH.
  - apply Hother. specialize (Hne 0 ltac:(lia)). by rewrite Nat.add_0_r in Hne.
  - intros k Hk. rewrite Hc, Hi. specialize (Hne (S k) ltac:(lia)).
    by replace (S (stateIndex st) + k) with (stateIndex st + S k) by lia.
Qed.

(** X9. Hooks are told apart by position alone.  When a component body
    calls [useState] several times in a row, starting with the cursor at
    ([c], [i]), the calls receive the hooks of the slots [i], [i+1], ... of
    [c], in that order, and the cursor ends after the last of them; the
    slot of each call holds, afterwards, the value it held before when that
    was not [undefined], and otherwise the initial value of that call.
    (So the same calls in the same order at the next render meet the same
    values.) *)
Theorem useStates_positions (initialValues : list value) (st : State) :
  fst (useStates initialValues st)
  = map (fun k => (currentComponent st, stateIndex st + k))
        (seq 0 (length initialValues)) /\
  stateIndex (snd (useStates initialValues st)) = stateIndex st + length initialValues /\
  forall k initialValue,
    nth_error initialValues k = Some initialValue ->
    getter (currentComponent st, stateIndex st + k) (snd (useStates initialValues st))
    = (if strict_eq (getter (currentComponent st, stateIndex st + k) st) VUndefined
       then initialValue
       else getter (currentComponent st, stateIndex st + k) st).
Proof.
  split; [|split; [apply useStates_cursor|]].
  - revert st. induction initialValues as [|init rest IH]; intros st;
      cbn [useStates length fst snd seq map]; [reflexivity|].
    destruct (useState_spec init st) as (Hh & _ & _ & Hc & Hi).
    destruct (useState init st) as [h st1]. cbn in Hh, Hc, Hi.
    specialize (IH st1). destruct (useStates rest st1) as [hs st2]. cbn in *.
    rewrite Hh, Nat.add_0_r. f_equal. rewrite IH, Hc, Hi, <- seq_shift, map_map.
    apply map_ext. intros k. f_equal. lia.
  - revert st. induction initialValues as [|init rest IH]; intros st k initialValue Hk.
    + destruct k; discriminate.
    + cbn [useStates].
      destruct (useState_spec init st) as (_ & Hslot & Hother & Hc & Hi).
      pose proof (useStates_other_slots rest (snd (useState init st))
                    (currentComponent st, stateIndex st)) as Hframe.
      specialize (IH (snd (useState init st))).
      destruct (useState init st) as [h st1]. cbn [snd] in *.
      destruct (useStates rest st1) as [hs st2] eqn:Erest. cbn [snd] in *.
      destruct k as [|k]; cbn in Hk.
      * injection Hk as <-. rewrite Nat.add_0_r. rewrite Hframe; [exact Hslot|].
        intros j _. rewrite Hc, Hi. intros Heq. injection Heq. lia.
      * rewrite Hc, Hi in IH. specialize (IH k initialValue Hk).
        replace (stateIndex st + S k) with (S (stateIndex st) + k) by lia.
        rewrite IH. rewrite Hother; [reflexivity|].
        intros Heq. injection Heq. lia.
Qed.

Lemma useStates_positions_witness :
  let first := with_cursor (Some Demo.Counter) 0 Demo.blank in
  let again :=
    with_cursor (Some Demo.Counter) 0 (snd (useStates [VNum 1; VStr "a"] first)) in
  getter (Some Demo.Counter, 1) (snd (useStates [VNum 1; VStr "a"] first)) = VStr "a" /\
  getter (Some Demo.Counter, 1) (snd (useStates [VNum 7; VStr "z"] again)) = VStr "a".
Proof.
  cbv zeta. split.
  - exact (proj2 (proj2 (useStates_positions [VNum 1; VStr "a"]
                           (with_cursor (Some Demo.Counter) 0 Demo.blank)))
             1 (VStr "a") eq_refl).
  - exact (proj2 (proj2 (useStates_positions [VNum 7; VStr "z"]
                           (with_cursor (Some Demo.Counter) 0
                              (snd (useStates [VNum 1; VStr "a"]
                                      (with_cursor (Some Demo.Counter) 0 Demo.blank))))))
             1 (VStr "z") eq_refl).
Defined.

Section Unrenderable.

Variable body : ref -> list (string * value) -> prog.
Variable fn_text : ref -> string.

Lemma render_unrenderable (fuel : nat) (v : value) (st st' : State) (n : node) :
  unrenderable v -> renderToDOM body fn_text fuel v st <> Normal n st'.
Proof.
  intros Hv Hr. destruct fuel as [|fuel]; [discriminate|].
  destruct v; cbn in Hv, Hr; try contradiction; discriminate.
Qed.

Lemma appendChildren_renders_all (render : value -> State -> result node)
    (cs : list value) (kids kids' : list node) (st st' : State) (child : value) :
  appendChildren render cs kids st = Normal kids' st' ->
  In child cs ->
  exists s n s', render child s = Normal n s'.
Proof.
  revert kids st. induction cs as [|c cs IH]; intros kids st Ha Hin; [contradiction|].
  cbn in Ha. destruct (render c st) as [n st1| |] eqn:E; try discriminate.
  destruct Hin as [->|Hin]; [eauto | eapply IH; eauto].
Qed.

(** X10. [createElement] keeps a boolean argument among the children (it
    drops [null] and [undefined] only), and the renderer cannot render a
    boolean: the render of a host-tag or fragment descriptor built from
    arguments that include [true] or [false] never returns a node. *)
Theorem boolean_child_never_renders (fuel : nat) (r : ref) (name : string)
    (p : option (list (string * value))) (args : list value) (b : bool)
    (st st' : State) (n : node) :
  In (VBool b) args ->
  In (VBool b) (children (createElement (Tag name) p args)) /\
  renderToDOM body fn_text fuel (VNode r (createElement (Tag name) p args)) st
    <> Normal n st'.
Proof.
  intros Hin.
  assert (Hkept : In (VBool b) (children (createElement (Tag name) p args))).
  { cbn. apply filter_In. split; [|destruct b; reflexivity].
    unfold flat. apply in_flat_map. exists (VBool b). split; [exact Hin | left; reflexivity]. }
  split; [exact Hkept|].
  intros Hr. destruct fuel as [|fuel]; [discriminate|].
  cbn [renderToDOM type createElement] in Hr. unfold bind, fresh in Hr.
  assert (Hnever : forall kids s kids' s',
             appendChildren (renderToDOM body fn_text fuel)
               (children (createElement (Tag name) p args)) kids s <> Normal kids' s').
  { intros kids s kids' s' Ha.
    destruct (appendChildren_renders_all _ _ _ _ _ _ _ Ha Hkept) as (s0 & n0 & s0' & Hc).
    exact (render_unrenderable fuel (VBool b) s0 s0' n0 I Hc). }
  destruct (String.eqb name "fragment").
  - destruct (appendChildren _ _ [] _) as [kids st1| |] eqn:Ea; try discriminate.
    exact (Hnever _ _ _ _ Ea).
  - destruct (bindProps _ _ _ _); [discriminate|].
    destruct (appendChildren _ _ [] _) as [kids st1| |] eqn:Ea; try discriminate.
    exact (Hnever _ _ _ _ Ea).
Qed.

End Unrenderable.

Lemma boolean_child_never_renders_witness :
  renderToDOM Demo.body Demo.fn_text 3
    (VNode 60 (createElement (Tag "div") None [VStr "a"; VBool false])) Demo.blank
  <> Normal (Text 0 "") Demo.blank.
Proof.
  exact (proj2 (boolean_child_never_renders Demo.body Demo.fn_text 3 60 "div" None
                  [VStr "a"; VBool false] false Demo.blank Demo.blank (Text 0 "")
                  (or_intror (or_introl eq_refl)))).
Defined.

(* ================================================================== *)
(** * The last rendered node and its parent *)
(* ================================================================== *)

Lemma find_none_all {A : Type} (f : A -> bool) (l : list A) :
  (forall x, In x l -> f x = false) -> List.find f l = None.
Proof.
  induction l as [|x l IH]; intros Hall; cbn; [reflexivity|].
  rewrite (Hall x (or_introl eq_refl)). apply IH. intros y Hy. apply Hall. right. exact Hy.
Qed.

(** A node whose identity no child of a container has, has no parent. *)
Lemma parentNode_none (i : nat) (st : State) :
  (forall c kids k, containers st !! c = Some kids -> In k kids -> node_id k <> i) ->
  parentNode i st = None.
Proof.
  intros Havoid. unfold parentNode. rewrite find_none_all; [reflexivity|].
  intros [c kids] Hin. cbn.
  apply list_elem_of_In, elem_of_map_to_list in Hin.
  destruct (existsb _ kids) eqn:E; [|reflexivity].
  apply existsb_exists in E. destruct E as (k & Hk & Heq).
  apply Nat.eqb_eq in Heq. exfalso. exact (Havoid c kids k Hin Hk Heq).
Qed.

Section LastRendered.

Variable body : ref -> list (string * value) -> prog.
Variable fn_text : ref -> string.
Hypothesis body_set_free : forall f ps, set_free (body f ps).

Lemma appendChildren_ids_above (render : value -> State -> result node) :
  (forall v st n st',
      render v st = Normal n st' ->
      nextNode st <= nextNode st' /\
      forall k, In k (nodes_of n) -> nextNode st <= node_id k) ->
  forall cs kids st kids' st',
    appendChildren render cs kids st = Normal kids' st' ->
    forall k, In k kids' -> In k kids \/ nextNode st <= node_id k.
Proof.
  intros Hrender. induction cs as [|c cs IH]; intros kids st kids' st' Ha k Hk; cbn in Ha.
  - injection Ha as <- _. left. exact Hk.
  - destruct (render c st) as [n st1| |] eqn:E; try discriminate.
    destruct (Hrender _ _ _ _ E) as [Hmono Hn].
    destruct (IH _ _ _ _ Ha k Hk) as [Hin|Hge]; [|right; lia].
    apply in_app_or in Hin. destruct Hin as [Hin|Hin]; [left; exact Hin|].
    right. apply Hn. exact Hin.
Qed.

(** The nodes that a render hands over are new: their identities are not
    below the next identity at the start, and the children of a fragment
    come after the fragment. *)
Lemma render_ids_above (fuel : nat) :
  forall v st n st',
    renderToDOM body fn_text fuel v st = Normal n st' ->
    nextNode st <= node_id n /\
    (forall k, In k (nodes_of n) -> nextNode st <= node_id k) /\
    (forall i kids, n = Fragment i kids -> forall k, In k kids -> i < node_id k).
Proof.
  induction fuel as [|fuel IH]; intros v st n st' Hr; [discriminate|].
  assert (Hstep : forall v st n st',
             renderToDOM body fn_text fuel v st = Normal n st' ->
             nextNode st <= nextNode st' /\
             forall k, In k (nodes_of n) -> nextNode st <= node_id k).
  { intros v0 s0 n0 s0' H0. split; [|apply (IH _ _ _ _ H0)].
    apply (render_quiet body fn_text fuel body_set_free v0 s0 s0').
    rewrite H0. reflexivity. }
  cbn [renderToDOM] in Hr. unfold bind, fresh in Hr.
  destruct v as [| | | | | | | | |r [k ps cs]]; try discriminate;
    try (injection Hr as <- _; cbn; repeat split; try lia;
         [intros k [<-|[]]; cbn; lia | intros; discriminate]).
  cbn [type props children] in Hr. destruct k as [tag|f].
  - destruct (String.eqb tag "fragment").
    + destruct (appendChildren _ cs [] _) as [kids st1| |] eqn:Ea; try discriminate.
      injection Hr as <- _.
      pose proof (appendChildren_ids_above _ Hstep _ _ _ _ _ Ea) as Hk. cbn in Hk.
      cbn. split; [lia|]. split.
      * intros k Hin. destruct (Hk k Hin) as [[]|]. lia.
      * intros i kids0 Heq k Hin. injection Heq as <- <-.
        destruct (Hk k Hin) as [[]|]. lia.
    + destruct (bindProps fn_text tag (newElement tag) ps); [discriminate|].
      destruct (appendChildren _ cs [] _) as [kids st1| |] eqn:Ea; try discriminate.
      assert (Hn : n = Element (nextNode st) e kids)
        by (destruct (member "_onMounted" ps) as [[]|]; congruence).
      subst n. cbn. split; [lia|]. split.
      * intros k [<-|[]]. cbn. lia.
      * intros; discriminate.
  - destruct (run _ _ _) as [res st1| |] eqn:Erun; try discriminate.
    assert (Hq : nextNode st <= nextNode st1).
    { pose proof (run_quiet (renderToDOM body fn_text fuel) _ (body_set_free f ps)
                    (with_cursor (Some f) 0 st) st1) as Hq.
      rewrite Erun in Hq. destruct (Hq eq_refl) as (_ & _ & Hq'). exact Hq'. }
    destruct (IH _ _ _ _ Hr) as (H1 & H2 & H3). cbn in H1, H2.
    split; [lia|]. split; [|exact H3].
    intros k Hk. specialize (H2 k Hk). lia.
Qed.


(** X12. When no component sets state while it renders, and the document
    holds no node with an identity still to be given out: after a setter
    call whose re-render produced a fragment, the node recorded as last
    rendered is that fragment, and it has no parent (its children were
    moved into the document, the fragment itself is nowhere).  The next
    state change therefore takes the path of X11 and empties the root
    container. *)
Theorem fragment_root_detached (fuel : nat) (h : hook) (v : value)
    (st st1 : State) (c i : nat) (kids : list node) :
  document_known st ->
  strict_eq (getter h st) v = false ->
  rootContainer st = Some c ->
  truthy (rootVNode st) = true ->
  renderToDOM body fn_text fuel (rootVNode st) (rerender_start h v st)
    = Normal (Fragment i kids) st1 ->
  exists st',
    setter body fn_text fuel h v st = Normal tt st' /\
    renderedNode st' = Some i /\
    parentNode i st' = None.
Proof.
  intros Hknown Hdiff Hc Hroot Hr.
  rewrite (setter_changed body fn_text fuel h v st Hdiff), Hc, Hroot, Hr.
  destruct (render_quiet body fn_text fuel body_set_free _ _ st1
              ltac:(rewrite Hr; reflexivity)) as ((Hcont & Hrn1 & _ & Hrc1) & _).
  destruct (render_ids_above fuel _ _ _ _ Hr) as (Hi & _ & Hkids).
  cbn in Hcont, Hrn1, Hrc1, Hi. specialize (Hkids i kids eq_refl).
  assert (Hold : forall c0 l k, containers st1 !! c0 = Some l -> In k l -> node_id k <> i).
  { intros c0 l k Hl Hk. rewrite Hcont in Hl. specialize (Hknown c0 l k Hl Hk). lia. }
  assert (Hnew : forall k, In k kids -> node_id k <> i)
    by (intros k Hk; specialize (Hkids k Hk); lia).
  eexists. split; [reflexivity|]. split; [reflexivity|].
  apply parentNode_none. intros c0 l k Hl Hk.
  destruct (renderedNode st1) as [old|];
    [destruct (parentNode old st1) as [parent|]|]; cbn in Hl.
  - destruct (decide (parent = c0)) as [->|Hne].
    + rewrite lookup_insert_eq in Hl. injection Hl as <-.
      apply in_flat_map in Hk. destruct Hk as (kid & Hkid & Hk).
      destruct (Nat.eqb (node_id kid) old).
      * cbn in Hk. by apply Hnew.
      * destruct Hk as [<-|[]]. unfold children_of in Hkid.
        destruct (containers st1 !! c0) as [l0|] eqn:El; [|contradiction].
        exact (Hold c0 l0 kid El Hkid).
    + rewrite lookup_insert_ne in Hl by exact Hne. exact (Hold c0 l k Hl Hk).
  - rewrite Hrc1, Hc in Hl. cbn in Hl.
    destruct (decide (c = c0)) as [->|Hne].
    + rewrite lookup_insert_eq in Hl. injection Hl as <-.
      unfold children_of in Hk. cbn in Hk. rewrite lookup_insert_eq in Hk.
      cbn in Hk. by apply Hnew.
    + rewrite lookup_insert_ne in Hl by exact Hne.
      rewrite lookup_insert_ne in Hl by exact Hne. exact (Hold c0 l k Hl Hk).
  - rewrite Hrc1, Hc in Hl. cbn in Hl.
    destruct (decide (c = c0)) as [->|Hne].
    + rewrite lookup_insert_eq in Hl. injection Hl as <-.
      unfold children_of in Hk. cbn in Hk. rewrite lookup_insert_eq in Hk.
      cbn in Hk. by apply Hnew.
    + rewrite lookup_insert_ne in Hl by exact Hne.
      rewrite lookup_insert_ne in Hl by exact Hne. exact (Hold c0 l k Hl Hk).
Qed.

End LastRendered.

Lemma listing_set_free (f : ref) (ps : list (string * value)) :
  set_free (Scene.listing f ps).
Proof. cbn. intros h v. exact I. Qed.

(** A check of [document_known] that can be run. *)
Lemma document_known_check (st : State) :
  forallb (fun entry => forallb (fun kid => Nat.ltb (node_id kid) (nextNode st))
                                (snd entry))
          (map_to_list (containers st)) = true ->
  document_known st.
Proof.
  intros Hcheck c kids kid Hl Hin.
  rewrite forallb_forall in Hcheck.
  apply elem_of_map_to_list, list_elem_of_In in Hl.
  specialize (Hcheck (c, kids) Hl). cbn in Hcheck.
  rewrite forallb_forall in Hcheck. apply Nat.ltb_lt. by apply Hcheck.
Qed.


Lemma fragment_root_detached_witness :
  exists st',
    setter Scene.listing Demo.fn_text 5 (Some 1%positive, 0) (VNum 1)
           Scene.listing_mounted = Normal tt st' /\
    renderedNode st' = Some 4 /\
    parentNode 4 st' = None.
Proof.
  apply (fragment_root_detached Scene.listing Demo.fn_text listing_set_free 5
           (Some 1%positive, 0) (VNum 1) Scene.listing_mounted
           (Scene.after
              (renderToDOM Scene.listing Demo.fn_text 5 (rootVNode Scene.listing_mounted)
                 (rerender_start (Some 1%positive, 0) (VNum 1) Scene.listing_mounted))
              Demo.blank)
           0 4 [Text 5 "n="; Text 6 "1"]).
  - apply document_known_check. vm_compute. reflexivity.
  - vm_compute. reflexivity.
  - vm_compute. reflexivity.
  - vm_compute. reflexivity.
  - vm_compute. reflexivity.
Defined.

(* ================================================================== *)
(** * [Fragment_component] *)
(* ================================================================== *)

(** X13. [Fragment_component] always returns a fragment descriptor without
    props.  A [children] prop that is not an array is its only child when
    it is truthy and is dropped when it is falsy (so [0] and the empty
    string are dropped, as are [null] and [undefined]); an array is spread,
    flattened one level more and stripped of [null] and [undefined]; with
    no [children] prop there is no child. *)
Theorem Fragment_component_children (ps : list (string * value)) :
  type (Fragment_component ps) = Tag "fragment" /\
  props (Fragment_component ps) = [] /\
  match member "children" ps with
  | Some (VArr _ items) =>
      exists flattened,
        spliced items flattened /\ kept flattened (children (Fragment_component ps))
  | Some v => children (Fragment_component ps) = (if truthy v then [v] else [])
  | None => children (Fragment_component ps) = []
  end.
Proof.
  unfold Fragment_component. split; [reflexivity|]. split; [reflexivity|].
  destruct (member "children" ps) as [v|]; [|reflexivity].
  destruct v as [| |[|]|n| |s| | | |]; try reflexivity.
  - cbn. destruct (Z.eqb n 0); reflexivity.
  - cbn. destruct (String.eqb s ""); reflexivity.
  - exists (flat items). split; [apply flat_spliced | apply filter_kept].
Qed.

(* ================================================================== *)
(** * Properties of the todo application *)
(* ================================================================== *)

Lemma filter_length_split {A : Type} (f : A -> bool) (l : list A) :
  length (List.filter f l) + length (List.filter (fun x => negb (f x)) l) = length l.
Proof.
  induction l as [|x l IH]; cbn; [reflexivity|].
  destruct (f x); cbn; lia.
Qed.

Lemma filter_all_true {A : Type} (f : A -> bool) (l : list A) :
  (forall x, In x l -> f x = true) -> List.filter f l = l.
Proof.
  induction l as [|x l IH]; intros Hall; cbn; [reflexivity|].
  rewrite (Hall x (or_introl eq_refl)). f_equal. apply IH.
  intros y Hy. apply Hall. right. exact Hy.
Qed.

(** X14. [toggleTodo] is its own inverse, keeps the todos in their places
    with their ids, texts and dates, and touches the todos of the given id
    only; when several todos have that id, all of them are toggled. *)
Theorem toggleTodo_involutive (i : Z) (todos : list TodoApp.Todo) :
  TodoApp.toggleTodo i (TodoApp.toggleTodo i todos) = todos /\
  map TodoApp.id (TodoApp.toggleTodo i todos) = map TodoApp.id todos /\
  map TodoApp.text (TodoApp.toggleTodo i todos) = map TodoApp.text todos /\
  map TodoApp.completed (TodoApp.toggleTodo i todos)
  = map (fun t => if Z.eqb (TodoApp.id t) i
                  then negb (TodoApp.completed t) else TodoApp.completed t) todos.
Proof.
  unfold TodoApp.toggleTodo. rewrite !map_map. repeat split.
  - rewrite <- (map_id todos) at 2. apply map_ext. intros [j t c d]. cbn.
    destruct (Z.eqb j i) eqn:E; cbn; rewrite E; [rewrite negb_involutive|]; reflexivity.
  - apply map_ext. intros t. destruct (Z.eqb (TodoApp.id t) i); reflexivity.
  - apply map_ext. intros t. destruct (Z.eqb (TodoApp.id t) i); reflexivity.
  - apply map_ext. intros t. destruct (Z.eqb (TodoApp.id t) i); reflexivity.
Qed.

(** X15. [deleteTodo] removes exactly the todos of the given id, all of
    them, and keeps the others in their order; deleting an id that no todo
    has changes nothing, and deleting twice is deleting once. *)
Theorem deleteTodo_removes (i : Z) (todos : list TodoApp.Todo) :
  (forall t, In t (TodoApp.deleteTodo i todos) <-> In t todos /\ TodoApp.id t <> i) /\
  sublist (TodoApp.deleteTodo i todos) todos /\
  TodoApp.deleteTodo i (TodoApp.deleteTodo i todos) = TodoApp.deleteTodo i todos /\
  ((forall t, In t todos -> TodoApp.id t <> i) -> TodoApp.deleteTodo i todos = todos).
Proof.
  unfold TodoApp.deleteTodo. split; [|split; [|split]].
  - intros t. rewrite filter_In, negb_true_iff, Z.eqb_neq. reflexivity.
  - induction todos as [|t todos IH]; cbn; [constructor|].
    destruct (negb _); [by apply sublist_skip | by apply sublist_cons].
  - apply filter_all_true. intros t Ht. apply filter_In in Ht. apply Ht.
  - intros Hnone. apply filter_all_true. intros t Ht.
    apply negb_true_iff, Z.eqb_neq. by apply Hnone.
Qed.

(** X16. Adding a todo and then deleting it by its id gives back the array
    as it was, provided no todo had that id already; the id is the clock
    value, and a todo added at the same clock value is deleted along with
    the new one. *)
Theorem addTodo_deleteTodo (now created : Z) (text : string)
    (todos : list TodoApp.Todo) :
  (forall t, In t todos -> TodoApp.id t <> now) ->
  TodoApp.deleteTodo now (TodoApp.addTodo now created text todos) = todos.
Proof.
  intros Hfresh. unfold TodoApp.deleteTodo, TodoApp.addTodo.
  rewrite List.filter_app. cbn. rewrite Z.eqb_refl. cbn. rewrite app_nil_r.
  apply filter_all_true. intros t Ht. apply negb_true_iff, Z.eqb_neq. by apply Hfresh.
Qed.

Lemma addTodo_deleteTodo_witness :
  TodoApp.deleteTodo 20
    (TodoApp.addTodo 20 21 "second" [TodoApp.mkTodo 10 "first" true 10])
  = [TodoApp.mkTodo 10 "first" true 10].
Proof.
  apply (addTodo_deleteTodo 20 21 "second" [TodoApp.mkTodo 10 "first" true 10]).
  intros t [<-|[]]. cbn. lia.
Defined.

(** The colliding case: both todos go. *)
Example deleteTodo_same_clock :
  TodoApp.deleteTodo 10
    (TodoApp.addTodo 10 11 "second" [TodoApp.mkTodo 10 "first" true 10]) = [].
Proof. reflexivity. Qed.

(** X17. The counts that [TodoApp] shows: the active count, computed as the
    total minus the completed count, is the number of todos that are not
    completed (and so is never negative); after [clearCompleted] the
    completed count is 0, the active count is what it was, and all that is
    left is active. *)
Theorem todo_counts (todos : list TodoApp.Todo) :
  TodoApp.activeCount todos
  = Z.of_nat (length (List.filter (fun t => negb (TodoApp.completed t)) todos)) /\
  TodoApp.completedCount (TodoApp.clearCompleted todos) = 0%Z /\
  TodoApp.activeCount (TodoApp.clearCompleted todos) = TodoApp.activeCount todos /\
  Forall (fun t => TodoApp.completed t = false) (TodoApp.clearCompleted todos).
Proof.
  assert (Hactive : forall l,
             TodoApp.activeCount l
             = Z.of_nat (length (List.filter (fun t => negb (TodoApp.completed t)) l))).
  { intros l. unfold TodoApp.activeCount, TodoApp.totalCount, TodoApp.completedCount.
    pose proof (filter_length_split (fun t => TodoApp.completed t) l). lia. }
  assert (Hnone : forall l,
             List.filter (fun t => TodoApp.completed t) (TodoApp.clearCompleted l) = []).
  { intros l. unfold TodoApp.clearCompleted.
    induction l as [|t l IH]; cbn; [reflexivity|].
    destruct (TodoApp.completed t) eqn:E; cbn; [exact IH|]. rewrite E. exact IH. }
  split; [apply Hactive|]. split; [|split].
  - unfold TodoApp.completedCount. rewrite Hnone. reflexivity.
  - rewrite !Hactive. f_equal. f_equal. unfold TodoApp.clearCompleted.
    apply filter_all_true. intros t Ht. apply filter_In in Ht. apply Ht.
  - apply List.Forall_forall. intros t Ht. unfold TodoApp.clearCompleted in Ht.
    apply filter_In in Ht. destruct Ht as [_ Ht]. by apply negb_true_iff in Ht.
Qed.

(* ================================================================== *)
(** * Properties of the data service *)
(* ================================================================== *)

Lemma update_first_length (category : string) (p : DataService.DataPoint)
    (charts : list DataService.ChartData) :
  length (DataService.update_first category p charts) = length charts.
Proof.
  induction charts as [|d rest IH]; cbn; [reflexivity|].
  destruct (DataService.has_category category d); cbn; [reflexivity | by rewrite IH].
Qed.

Lemma update_first_found (category : string) (p : DataService.DataPoint)
    (charts : list DataService.ChartData) (chart : DataService.ChartData) :
  DataService.getDataByCategory category charts = Some chart ->
  DataService.getDataByCategory category (DataService.update_first category p charts)
  = Some (DataService.mkChart (DataService.title chart) (DataService.type chart)
            (DataService.pushed p (DataService.data chart))
            (DataService.category chart)).
Proof.
  unfold DataService.getDataByCategory.
  induction charts as [|d rest IH]; cbn; [discriminate|].
  destruct (DataService.has_category category d) eqn:E; cbn.
  - intros Hf. injection Hf as <-.
    unfold DataService.has_category in *. cbn. rewrite E. reflexivity.
  - rewrite E. exact IH.
Qed.

Lemma update_first_other (category other : string) (p : DataService.DataPoint)
    (charts : list DataService.ChartData) :
  other <> category ->
  DataService.getDataByCategory other (DataService.update_first category p charts)
  = DataService.getDataByCategory other charts.
Proof.
  intros Hne. unfold DataService.getDataByCategory.
  induction charts as [|d rest IH]; cbn; [reflexivity|].
  destruct (DataService.has_category category d) eqn:E; cbn.
  - assert (Ho : DataService.has_category other d = false).
    { unfold DataService.has_category in *.
      destruct (DataService.category d) as [c|]; [|reflexivity].
      apply String.eqb_eq in E. subst c.
      apply String.eqb_neq. congruence. }
    rewrite Ho. unfold DataService.has_category at 1. cbn.
    fold (DataService.has_category other d). rewrite Ho. reflexivity.
  - destruct (DataService.has_category other d); [reflexivity | exact IH].
Qed.

(** X18. A successful [simulateUpdate]: when the first chart of the
    category has points, the call returns the new point, whose label is the
    label of the last point followed by [+]; that chart then ends with the
    new point, has lost its oldest point if it had ten or more, and so
    holds at most ten points if it held at most ten; the charts of the
    other categories and the number of charts are unchanged. *)
Theorem simulateUpdate_window (category : string) (rounded now : Z)
    (charts : list DataService.ChartData) (chart : DataService.ChartData) :
  DataService.getDataByCategory category charts = Some chart ->
  DataService.data chart <> [] ->
  exists newPoint charts',
    DataService.simulateUpdate category rounded now charts = (Some newPoint, charts') /\
    DataService.label newPoint
      = String.append (DataService.label (List.last (DataService.data chart) newPoint)) "+" /\
    DataService.value newPoint = rounded /\
    (exists chart',
        DataService.getDataByCategory category charts' = Some chart' /\
        DataService.data chart'
          = (if Nat.leb 10 (length (DataService.data chart))
             then tl (DataService.data chart) else DataService.data chart)
            ++ [newPoint] /\
        (length (DataService.data chart) <= 10 ->
         length (DataService.data chart') <= 10)) /\
    (forall other, other <> category ->
        DataService.getDataByCategory other charts'
        = DataService.getDataByCategory other charts) /\
    length charts' = length charts.
Proof.
  intros Hfound Hpoints. unfold DataService.simulateUpdate. rewrite Hfound.
  destruct (rev (DataService.data chart)) as [|lastPoint before] eqn:Erev.
  { exfalso. apply Hpoints. apply (f_equal (@rev _)) in Erev.
    rewrite rev_involutive in Erev. exact Erev. }
  assert (Hdata : DataService.data chart = rev before ++ [lastPoint]).
  { apply (f_equal (@rev _)) in Erev. rewrite rev_involutive in Erev. exact Erev. }
  eexists _, _. split; [reflexivity|]. split; [|split; [reflexivity|]].
  - cbn. rewrite Hdata, last_last. reflexivity.
  - split; [|split].
    + eexists. split; [apply update_first_found; exact Hfound|].
      cbn [DataService.data]. split; [reflexivity|].
      unfold DataService.pushed. intros Hlen.
      destruct (Nat.leb 10 (length (DataService.data chart))) eqn:E.
      * apply Nat.leb_le in E. rewrite length_app. cbn [length].
        destruct (DataService.data chart); cbn [length tl] in *; lia.
      * apply Nat.leb_gt in E. rewrite length_app. cbn [length]. lia.
    + intros other Hne. by apply update_first_other.
    + apply update_first_length.
Qed.

Lemma simulateUpdate_window_witness :
  exists newPoint charts',
    DataService.simulateUpdate "sales" 61 1000 DataService.mockData
      = (Some newPoint, charts') /\
    DataService.label newPoint = "Jun+" /\
    length charts' = 3.
Proof.
  destruct (simulateUpdate_window "sales" 61 1000 DataService.mockData
              (DataService.mkChart "Monthly Sales" DataService.bar
                 [DataService.mkPoint "Jan" 65 None; DataService.mkPoint "Feb" 59 None;
                  DataService.mkPoint "Mar" 80 None; DataService.mkPoint "Apr" 81 None;
                  DataService.mkPoint "May" 56 None; DataService.mkPoint "Jun" 55 None]
                 (Some "sales")) eq_refl ltac:(discriminate))
    as (newPoint & charts' & Hsim & Hlabel & _ & _ & _ & Hlen).
  exists newPoint, charts'. split; [exact Hsim|]. split; [exact Hlabel | exact Hlen].
Defined.

(** X19. [simulateUpdate] returns [null] in exactly two cases: no chart
    has the category, or the first chart that has it holds no point; and
    when it returns [null] the array is as it was. *)
Theorem simulateUpdate_null (category : string) (rounded now : Z)
    (charts : list DataService.ChartData) :
  (fst (DataService.simulateUpdate category rounded now charts) = None <->
   (DataService.getDataByCategory category charts = None \/
    exists chart,
      DataService.getDataByCategory category charts = Some chart /\
      DataService.data chart = [])) /\
  (fst (DataService.simulateUpdate category rounded now charts) = None ->
   snd (DataService.simulateUpdate category rounded now charts) = charts).
Proof.
  unfold DataService.simulateUpdate.
  destruct (DataService.getDataByCategory category charts) as [chart|] eqn:Ef.
  - destruct (rev (DataService.data chart)) as [|lastPoint before] eqn:Erev; cbn.
    + split; [|reflexivity]. split; [|reflexivity].
      intros _. right. exists chart. split; [reflexivity|].
      apply (f_equal (@rev _)) in Erev. rewrite rev_involutive in Erev. exact Erev.
    + split; [|discriminate]. split; [discriminate|].
      intros [Hn | (chart0 & Hc & Hd)]; [discriminate|].
      injection Hc as <-. rewrite Hd in Erev. discriminate.
  - cbn. split; [|reflexivity]. split; [auto | reflexivity].
Qed.

Lemma simulateUpdate_null_witness :
  DataService.simulateUpdate "costs" 1 2 DataService.mockData
  = (None, DataService.mockData).
Proof.
  destruct (simulateUpdate_null "costs" 1 2 DataService.mockData) as [Hiff Hsame].
  assert (Hnone : fst (DataService.simulateUpdate "costs" 1 2 DataService.mockData) = None)
    by (apply Hiff; left; reflexivity).
  specialize (Hsame Hnone).
  destruct (DataService.simulateUpdate "costs" 1 2 DataService.mockData) as [p d].
  cbn in Hnone, Hsame. by subst.
Defined.

Lemma deleteTodo_removes_witness :
  TodoApp.deleteTodo 7 [TodoApp.mkTodo 1 "a" false 1; TodoApp.mkTodo 2 "b" true 2]
  = [TodoApp.mkTodo 1 "a" false 1; TodoApp.mkTodo 2 "b" true 2].
Proof.
  apply (deleteTodo_removes 7
           [TodoApp.mkTodo 1 "a" false 1; TodoApp.mkTodo 2 "b" true 2]).
  intros t [<-|[<-|[]]]; cbn; lia.
Defined.



(* ================================================================== *)
(** * State shared by the instances of a component *)
(* ================================================================== *)

Section SharedSlots.

Variable body : ref -> list (string * value) -> prog.
Variable fn_text : ref -> string.

(** ** The logged functions are the functions of the runtime *)

Lemma run_logged_result (render : value -> State -> result node) (p : prog) :
  forall st, fst (run_logged render p st) = run render p st.
Proof.
  induction p as [d|e|init k IH|h k IH|h v k IH]; intros st; cbn [run_logged run].
  - reflexivity.
  - reflexivity.
  - destruct (useState init st) as [hk st1]. specialize (IH hk st1).
    destruct (run_logged render (k hk) st1) as [r log]. exact IH.
  - specialize (IH (getter h st) st).
    destruct (run_logged render (k (getter h st)) st) as [r log]. exact IH.
  - destruct (setter_with render h v st) as [u st1|ex st1|]; [apply IH | |]; reflexivity.
Qed.

Lemma appendChildren_logged_result
    (logged : value -> State -> result node * list invocation)
    (render : value -> State -> result node) :
  (forall v st, fst (logged v st) = render v st) ->
  forall cs kids st,
    fst (appendChildren_logged logged cs kids st) = appendChildren render cs kids st.
Proof.
  intros Hsame. induction cs as [|c cs IH]; intros kids st;
    cbn [appendChildren_logged appendChildren]; [reflexivity|].
  rewrite <- (Hsame c st). destruct (logged c st) as [[n st1|ex st1|] log]; cbn [fst].
  - specialize (IH (kids ++ nodes_of n) st1).
    destruct (appendChildren_logged logged cs (kids ++ nodes_of n) st1) as [r log'].
    exact IH.
  - reflexivity.
  - reflexivity.
Qed.

Lemma renderToDOM_logged_result (fuel : nat) :
  forall vnode st,
    fst (renderToDOM_logged body fn_text fuel vnode st)
    = renderToDOM body fn_text fuel vnode st.
Proof.
  induction fuel as [|fuel IH]; intros vnode st; [reflexivity|].
  destruct vnode as [| | | | | | | | |r [k ps cs]]; try reflexivity.
  cbn [renderToDOM_logged renderToDOM type props children].
  destruct k as [tag|f].
  - unfold bind, fresh.
    pose proof (appendChildren_logged_result _ _ IH cs []
                  (with_nextNode (S (nextNode st)) st)) as Ha.
    destruct (String.eqb tag "fragment").
    + destruct (appendChildren_logged _ cs [] _) as [ra log]. cbn [fst] in Ha |- *.
      rewrite <- Ha. destruct ra; reflexivity.
    + destruct (bindProps fn_text tag (newElement tag) ps); [reflexivity|].
      destruct (appendChildren_logged _ cs [] _) as [ra log]. cbn [fst] in Ha |- *.
      rewrite <- Ha. destruct ra; reflexivity.
  - pose proof (run_logged_result (renderToDOM body fn_text fuel) (body f ps)
                  (with_cursor (Some f) 0 st)) as Hrun.
    destruct (run_logged _ (body f ps) _) as [rr seen]. cbn [fst] in Hrun.
    rewrite <- Hrun. destruct rr as [res st1|ex st1|]; try reflexivity.
    specialize (IH res (with_currentComponent None st1)).
    destruct (renderToDOM_logged body fn_text fuel res _) as [r' log]. exact IH.
Qed.

(** ** What a body meets *)



(** ** The calls of a render *)


Hypothesis body_set_free : forall f ps, set_free (body f ps).







(** The calls of [setter_calls] are those of the render that decides the
    outcome of the setter. *)
Lemma setter_calls_of_rerender (fuel : nat) (h : hook) (v : value) (st : State)
    (c : nat) :
  strict_eq (getter h st) v = false ->
  rootContainer st = Some c ->
  truthy (rootVNode st) = true ->
  let rerender :=
    renderToDOM_logged body fn_text fuel (rootVNode st) (rerender_start h v st) in
  setter_calls body fn_text fuel h v st = snd rerender /\
  (forall e st1,
      fst rerender = Thrown e st1 -> setter body fn_text fuel h v st = Thrown e st1) /\
  (forall n st1,
      fst rerender = Normal n st1 ->
      exists st', setter body fn_text fuel h v st = Normal tt st').
Proof.
  intros Hdiff Hroot Hvnode. cbv zeta.
  rewrite renderToDOM_logged_result, (setter_changed body fn_text fuel h v st Hdiff).
  rewrite Hroot, Hvnode. split; [|split].
  - destruct h as [component index]. unfold setter_calls, getter in *.
    cbn [fst snd] in *. rewrite Hdiff. cbn. rewrite Hroot, Hvnode. reflexivity.
  - intros e st1 ->. reflexivity.
  - intros n st1 ->. eexists. reflexivity.
Qed.

End SharedSlots.

(** A component that sets its state before its last hook, as [Hasty] does
    at its first call, receives that hook from the slots kept under
    [null], at the index where the re-render has left off. *)
Example hook_after_set_is_not_positional :
  snd (renderToDOM_logged Rash.hasty Demo.fn_text 5 Rash.rash_app
         (with_root Rash.rash_app (Some 0) Demo.blank))
  = [mkInvocation 1 []
       [Issued (Some 1%positive, 0); Read (Some 1%positive, 0) (VNum 0);
        Issued (None, 2)]].
Proof. vm_compute. reflexivity. Qed.

(** The re-render that the first counter's setter makes, called with 9:
    [Pair] is called, then [Counter] for each of its two descriptors, and
    both calls read 9 from the hook at index 0. *)
Example pair_rerender_calls :
  setter_calls Demo.calm Demo.fn_text 6 (Some Demo.Counter, 0) (VNum 9)
               Shared.pair_mounted
  = [mkInvocation Demo.Pair [] [];
     mkInvocation Demo.Counter [("initialCount", VNum 5)]
       [Issued (Some Demo.Counter, 0); Read (Some Demo.Counter, 0) (VNum 9)];
     mkInvocation Demo.Counter [("label", VStr "second")]
       [Issued (Some Demo.Counter, 0); Read (Some Demo.Counter, 0) (VNum 9)]].
Proof. vm_compute. reflexivity. Qed.

(** The render that [mount] has made of the two counters: both calls of
    [Counter] have received the hook ([Counter], 0). *)
Example pair_mount_calls_hooks :
  Shared.pair_mount_calls
  = [mkInvocation Demo.Pair [] [];
     mkInvocation Demo.Counter [("initialCount", VNum 5)]
       [Issued (Some Demo.Counter, 0); Read (Some Demo.Counter, 0) (VNum 5)];
     mkInvocation Demo.Counter [("label", VStr "second")]
       [Issued (Some Demo.Counter, 0); Read (Some Demo.Counter, 0) (VNum 5)]].
Proof. vm_compute. reflexivity. Qed.


